(** * ansible_puller: virtual environments (venv.go)

    A shallow embedding of [venv.go]: interpreter version detection,
    creation of a virtual environment by one of two strategies, package
    update, and the runner of binaries of the environment ([VenvCommand.Run])
    with its two output modes and its error reporting.

    Go strings are byte strings: they are [string] here, one [ascii] per
    byte. Go's [int] is taken to be 64 bits wide. The operating system
    (process environment, file system, child processes, the deadline of the
    context) is a parameter of the model: every function is a computation
    over an abstract world, through the interface [Sys]. *)

From Stdlib Require Import String Ascii ZArith List Lia Bool.
Import ListNotations.

Local Open Scope string_scope.
Local Open Scope Z_scope.

(** ** Errors *)

(** The two kinds of [strconv.NumError]. *)
Inductive numErr : Type := ErrSyntax | ErrRange.

(** Go [error] values met by the program. [fundamental] and [withMessage]
    are the ones of [github.com/pkg/errors] ([errors.New], [errors.Wrap]);
    the others come from [os], [os/exec], [context] and [strconv]. *)
Inductive error : Type :=
| ExitError (exitCode : Z)              (* exec.ExitError, with its ExitCode() *)
| ErrNotExist (name : string)           (* an error for which os.IsNotExist holds *)
| DeadlineExceeded                      (* context.DeadlineExceeded *)
| NumError (num : string) (k : numErr)  (* strconv.NumError *)
| OsError (msg : string)                (* any other error of the system layer *)
| fundamental (msg : string)
| withMessage (cause : error) (msg : string).

Module errors.

Definition New (message : string) : option error := Some (fundamental message).

(** [errors.Wrap]: "If err is nil, Wrap returns nil." *)
Definition Wrap (err : option error) (message : string) : option error :=
  match err with
  | None => None
  | Some e => Some (withMessage e message)
  end.

End errors.

(** [os.IsNotExist]: looks at the error itself, not through the wrappers of
    [pkg/errors]; false on [nil]. *)
Definition IsNotExist (err : option error) : bool :=
  match err with
  | Some (ErrNotExist _) => true
  | _ => false
  end.

(** The type assertion of [err] to a pointer to [exec.ExitError]: the exit
    error, or the nil pointer ([None]) when [err] is of another type. *)
Definition asExitError (err : error) : option Z :=
  match err with
  | ExitError code => Some code
  | _ => None
  end.

(** ** Results of Go code: a value, or a run-time panic *)

Inductive Outcome (A : Type) : Type :=
| Returned (a : A)
| Panicked (msg : string).
Arguments Returned {A} a.
Arguments Panicked {A} msg.

(** ** Bytes and runes *)

Definition byte (c : ascii) : Z := Z.of_N (N_of_ascii c).

Definition isDigit (c : ascii) : bool := (48 <=? byte c) && (byte c <=? 57).

Definition inRange (lo hi : Z) (c : ascii) : bool := (lo <=? byte c) && (byte c <=? hi).

(** Continuation bytes of UTF-8 are 0x80..0xBF. *)
Definition isCont (c : ascii) : bool := inRange 128 191 c.

(** Width in bytes of the first rune of [s], as [utf8.DecodeRuneInString]
    computes it: 0 on the empty string, 1 on an ASCII byte and on any
    invalid or truncated encoding (the rune is then [RuneError]). The table
    is [first] and [acceptRanges] of [unicode/utf8]. *)
Definition runeWidth (s : string) : nat :=
  match s with
  | EmptyString => 0%nat
  | String s0 t =>
    let b := byte s0 in
    (* size of the encoding and accepted range of the second byte *)
    let '(sz, lo, hi) :=
      if b <? 128 then (1, 0, 0)
      else if b <? 194 then (1, 0, 0)             (* 0x80..0xC1: invalid *)
      else if b <? 224 then (2, 128, 191)         (* 0xC2..0xDF *)
      else if b =? 224 then (3, 160, 191)         (* 0xE0 *)
      else if b =? 237 then (3, 128, 159)         (* 0xED *)
      else if b <? 240 then (3, 128, 191)         (* 0xE1..0xEF *)
      else if b =? 240 then (4, 144, 191)         (* 0xF0 *)
      else if b <? 244 then (4, 128, 191)         (* 0xF1..0xF3 *)
      else if b =? 244 then (4, 128, 143)         (* 0xF4 *)
      else (1, 0, 0) in                           (* 0xF5..0xFF: invalid *)
    if sz =? 1 then 1%nat
    else
      match t with
      | EmptyString => 1%nat
      | String s1 t1 =>
        if negb (inRange lo hi s1) then 1%nat
        else if sz =? 2 then 2%nat
        else
          match t1 with
          | EmptyString => 1%nat
          | String s2 t2 =>
            if negb (isCont s2) then 1%nat
            else if sz =? 3 then 3%nat
            else
              match t2 with
              | EmptyString => 1%nat
              | String s3 _ => if negb (isCont s3) then 1%nat else 4%nat
              end
          end
      end
  end.

Fixpoint take (n : nat) (s : string) : string :=
  match n, s with
  | S n', String c t => String c (take n' t)
  | _, _ => EmptyString
  end.

Fixpoint drop (n : nat) (s : string) : string :=
  match n, s with
  | S n', String _ t => drop n' t
  | _, _ => s
  end.

(** [s] without the prefix [p], when it has it. *)
Fixpoint stripPrefix (p s : string) : option string :=
  match p, s with
  | EmptyString, _ => Some s
  | String a p', String b s' => if Ascii.eqb a b then stripPrefix p' s' else None
  | String _ _, EmptyString => None
  end.

(** The longest run of digits at the head of [s], and what follows it. *)
Fixpoint spanDigits (s : string) : string * string :=
  match s with
  | String c t =>
    if isDigit c then let '(ds, r) := spanDigits t in (String c ds, r)
    else (EmptyString, s)
  | EmptyString => (EmptyString, EmptyString)
  end.

(** [strings.Contains]: [substr] occurs in [s]. *)
Fixpoint Contains (s substr : string) : bool :=
  match stripPrefix substr s with
  | Some _ => true
  | None =>
    match s with
    | EmptyString => false
    | String _ t => Contains t substr
    end
  end.

(** ** The regular expression of getPythonVersion

    [regexp.MustCompile(`Python (\d).(\d+)(\.\d+)?`)], with Go's leftmost-first
    matching. [\d] is an ASCII digit; the unescaped [.] is any one rune but a
    newline; [\d+] is greedy, and since what follows it is optional the first
    match found has the longest run of digits as its second group. *)

(** A match that starts at the head of [s]: the whole match and the three
    groups (an unmatched group is the empty string in Go's result). *)
Definition matchHere (s : string) : option (list string) :=
  match stripPrefix "Python " s with
  | None => None
  | Some (String d r1) =>
    if isDigit d then
      match r1 with
      | EmptyString => None
      | String c _ =>
        if byte c =? 10 then None
        else
          let w := runeWidth r1 in
          let dot := take w r1 in
          let '(minor, r2) := spanDigits (drop w r1) in
          match minor with
          | EmptyString => None
          | _ =>
            let patch :=
              match r2 with
              | String "." r3 =>
                match spanDigits r3 with
                | (EmptyString, _) => EmptyString
                | (ds, _) => String "." ds
                end
              | _ => EmptyString
              end in
            let major := String d EmptyString in
            Some [ "Python " ++ major ++ dot ++ minor ++ patch; major; minor; patch ]
          end
      end
    else None
  | Some EmptyString => None
  end.

(** [r.FindStringSubmatch(s)]: the leftmost match, [nil] when there is
    none. The pattern starts with an ASCII letter, which never occurs inside
    the encoding of another rune, so trying every byte offset finds the same
    match as Go's rune by rune scan. *)
Fixpoint FindStringSubmatch (s : string) : list string :=
  match matchHere s with
  | Some m => m
  | None =>
    match s with
    | EmptyString => []
    | String _ t => FindStringSubmatch t
    end
  end.

(** ** strconv.Atoi *)

Definition maxUint64 : Z := 2 ^ 64 - 1.
Definition maxInt : Z := 2 ^ 63 - 1.
Definition minInt : Z := - 2 ^ 63.

(** [strconv.ParseUint] in base 10 on 64 bits: left to right, a byte that
    is no digit is a syntax error, a value above [maxUint64] a range error. *)
Fixpoint parseDigits (s : string) (n : Z) : Z + numErr :=
  match s with
  | EmptyString => inl n
  | String c t =>
    if isDigit c then
      let n1 := n * 10 + (byte c - 48) in
      if n1 >? maxUint64 then inr ErrRange else parseDigits t n1
    else inr ErrSyntax
  end.

Definition Atoi (s : string) : Z + error :=
  match s with
  | EmptyString => inr (NumError s ErrSyntax)
  | String c t =>
    let neg := Ascii.eqb c "-" in
    let body := if neg || Ascii.eqb c "+" then t else s in
    match body with
    | EmptyString => inr (NumError s ErrSyntax)
    | _ =>
      match parseDigits body 0 with
      | inr k => inr (NumError s k)
      | inl un =>
        if neg then (if un >? - minInt then inr (NumError s ErrRange) else inl (- un))
        else (if un >? maxInt then inr (NumError s ErrRange) else inl un)
      end
    end
  end.

(** ** The system interface *)

Module exec.

(** Where the standard output and standard error of a child go. *)
Inductive Stdio : Type :=
| Null      (* Stdout and Stderr left nil *)
| Buffers   (* two bytes.Buffer, read back once the command has run *)
| Pipes.    (* StdoutPipe and StderrPipe *)

(** The fields of [exec.Cmd] that the program sets. [Path] is the name
    given to [exec.Command]; looking a bare name up on the search path is
    left to the system. [Env = None] is the nil slice: the child inherits
    the environment. [Deadline] is the timeout of the context of
    [exec.CommandContext], in nanoseconds. *)
Record Cmd : Type := {
  Path : string;
  Args : list string;
  Env : option (list string);
  Dir : string;
  Out : Stdio;
  Deadline : option Z
}.

Definition Command (name : string) (arg : list string) : Cmd :=
  {| Path := name; Args := name :: arg; Env := None; Dir := "";
     Out := Null; Deadline := None |}.

Definition CommandContext (timeout : Z) (name : string) (arg : list string) : Cmd :=
  {| Path := name; Args := name :: arg; Env := None; Dir := "";
     Out := Null; Deadline := Some timeout |}.

Definition setDir (dir : string) (c : Cmd) : Cmd :=
  {| Path := Path c; Args := Args c; Env := Env c; Dir := dir;
     Out := Out c; Deadline := Deadline c |}.

Definition setEnv (env : list string) (c : Cmd) : Cmd :=
  {| Path := Path c; Args := Args c; Env := Some env; Dir := Dir c;
     Out := Out c; Deadline := Deadline c |}.

Definition setOut (o : Stdio) (c : Cmd) : Cmd :=
  {| Path := Path c; Args := Args c; Env := Env c; Dir := Dir c;
     Out := o; Deadline := Deadline c |}.

End exec.

(** What the program asks of the operating system and of the libraries
    [os], [os/exec], [path/filepath] and [context], over a world [W].
    - [sys_Output]: [cmd.Output()], the captured standard output and the error;
    - [sys_Run]: [cmd.Run()], what the child wrote to [cmd.Stdout] and
      [cmd.Stderr] by the time the call returns, and the error;
    - [sys_Start], [sys_Wait]: [cmd.Start()] and [cmd.Wait()];
    - [sys_CtxErr]: [ctx.Err()] of the context of the running invocation. *)
Record Sys (W : Type) : Type := {
  sys_Stat : string -> W -> option error;
  sys_LookupEnv : string -> W -> option string;
  sys_Setenv : string -> string -> W -> W;
  sys_Environ : W -> list string;
  sys_LookPath : string -> W -> string + error;
  sys_Join : list string -> string;
  sys_Output : exec.Cmd -> W -> W * (string * option error);
  sys_Run : exec.Cmd -> W -> W * (string * string * option error);
  sys_Start : exec.Cmd -> W -> W * option error;
  sys_Wait : exec.Cmd -> W -> W * option error;
  sys_CtxErr : W -> option error
}.
Arguments sys_Stat {W}.
Arguments sys_LookupEnv {W}.
Arguments sys_Setenv {W}.
Arguments sys_Environ {W}.
Arguments sys_LookPath {W}.
Arguments sys_Join {W}.
Arguments sys_Output {W}.
Arguments sys_Run {W}.
Arguments sys_Start {W}.
Arguments sys_Wait {W}.
Arguments sys_CtxErr {W}.

(** What a computation did to the outside, in order: the changes of the
    environment, the searches on the path and the child processes. *)
Inductive Event : Type :=
| EvSetenv (key value : string)
| EvLookPath (file : string)
| EvOutput (cmd : exec.Cmd)
| EvRun (cmd : exec.Cmd)
| EvStart (cmd : exec.Cmd)
| EvWait (cmd : exec.Cmd).

(** ** The monad of the program: world, log of events, panics *)

Record State (W : Type) : Type := mkState { world : W; events : list Event }.
Arguments mkState {W}.
Arguments world {W}.
Arguments events {W}.

Definition M (W A : Type) : Type := State W -> State W * Outcome A.

Definition ret {W A} (a : A) : M W A := fun s => (s, Returned a).

Definition panic {W A} (msg : string) : M W A := fun s => (s, Panicked msg).

Definition bind {W A B} (m : M W A) (k : A -> M W B) : M W B :=
  fun s =>
    match m s with
    | (s', Returned a) => k a s'
    | (s', Panicked msg) => (s', Panicked msg)
    end.

Declare Scope go_scope.
Delimit Scope go_scope with go.
Notation "x <- m ;; k" := (bind m (fun x => k))
  (at level 100, m at next level, right associativity) : go_scope.
Notation "' p <- m ;; k" := (bind m (fun x => let 'p := x in k))
  (at level 100, p pattern, m at next level, right associativity) : go_scope.
Notation "m ;; k" := (bind m (fun _ => k))
  (at level 100, right associativity) : go_scope.

(** ** The data of venv.go *)

Definition Hour : Z := 3600 * 1000000000.

Definition venvCommandTimeout : Z := 2 * Hour.

Record VenvConfig : Type := {
  Path : string;
  Python : string
}.

Record VenvCommand : Type := {
  Config : VenvConfig;
  Binary : string;
  Args : list string;
  Cwd : string;
  Env : list string;
  StreamOutput : bool
}.

Record VenvCommandRunOutput : Type := {
  Stdout : string;
  Stderr : string;
  Error : option error;
  Exitcode : Z
}.

Definition setStdout (v : string) (o : VenvCommandRunOutput) : VenvCommandRunOutput :=
  {| Stdout := v; Stderr := Stderr o; Error := Error o; Exitcode := Exitcode o |}.

Definition setStderr (v : string) (o : VenvCommandRunOutput) : VenvCommandRunOutput :=
  {| Stdout := Stdout o; Stderr := v; Error := Error o; Exitcode := Exitcode o |}.

Definition setError (v : option error) (o : VenvCommandRunOutput) : VenvCommandRunOutput :=
  {| Stdout := Stdout o; Stderr := Stderr o; Error := v; Exitcode := Exitcode o |}.

Definition setExitcode (v : Z) (o : VenvCommandRunOutput) : VenvCommandRunOutput :=
  {| Stdout := Stdout o; Stderr := Stderr o; Error := Error o; Exitcode := v |}.

(** ** The functions of venv.go

    The calls that only write to the log ([logrus.Debugln],
    [failedCommandLogger]) are left out. *)

Section Program.

Context {W : Type} (sys : Sys W).

Local Open Scope go_scope.

(** *** System calls as computations *)

Definition Stat (name : string) : M W (option error) :=
  fun s => (s, Returned (sys_Stat sys name (world s))).

Definition LookupEnv (key : string) : M W (option string) :=
  fun s => (s, Returned (sys_LookupEnv sys key (world s))).

Definition Setenv (key value : string) : M W unit :=
  fun s => (mkState (sys_Setenv sys key value (world s))
                    (events s ++ [EvSetenv key value]), Returned tt).

Definition Environ : M W (list string) :=
  fun s => (s, Returned (sys_Environ sys (world s))).

Definition LookPath (file : string) : M W (string + error) :=
  fun s => (mkState (world s) (events s ++ [EvLookPath file]),
            Returned (sys_LookPath sys file (world s))).

Definition CtxErr : M W (option error) :=
  fun s => (s, Returned (sys_CtxErr sys (world s))).

Definition cmdOutput (cmd : exec.Cmd) : M W (string * option error) :=
  fun s => let '(w, r) := sys_Output sys cmd (world s) in
           (mkState w (events s ++ [EvOutput cmd]), Returned r).

Definition cmdRun (cmd : exec.Cmd) : M W (string * string * option error) :=
  fun s => let '(w, r) := sys_Run sys cmd (world s) in
           (mkState w (events s ++ [EvRun cmd]), Returned r).

Definition cmdStart (cmd : exec.Cmd) : M W (option error) :=
  fun s => let '(w, r) := sys_Start sys cmd (world s) in
           (mkState w (events s ++ [EvStart cmd]), Returned r).

Definition cmdWait (cmd : exec.Cmd) : M W (option error) :=
  fun s => let '(w, r) := sys_Wait sys cmd (world s) in
           (mkState w (events s ++ [EvWait cmd]), Returned r).

(** [xs[i]]: indexing a slice panics out of range (on the nil slice too). *)
Definition index (xs : list string) (i : nat) : M W string :=
  match nth_error xs i with
  | Some x => ret x
  | None => panic "runtime error: index out of range"
  end.

(** [exitError.ExitCode()]: the method is the one of the embedded
    [ProcessState], reached through the pointer; on the nil pointer the
    field access panics. *)
Definition ExitCode (exitError : option Z) : M W Z :=
  match exitError with
  | Some code => ret code
  | None => panic "runtime error: invalid memory address or nil pointer dereference"
  end.

(** *** getPythonVersion *)

Definition getPythonVersion (interpreter : string) : M W (Z * Z * option error) :=
  let cmd := exec.Command interpreter ["--version"] in
  '(output, err) <- cmdOutput cmd ;;
  match err with
  | Some _ => ret (-1, -1, errors.Wrap err "Unable to determine Python version.")
  | None =>
    let matches := FindStringSubmatch output in
    m1 <- index matches 1 ;;
    match Atoi m1 with
    | inr e => ret (-1, -1, errors.Wrap (Some e) "Unable to parse Python Major version.")
    | inl majorVersion =>
      m2 <- index matches 2 ;;
      match Atoi m2 with
      | inr e => ret (-1, 1, errors.Wrap (Some e) "Unable to parse Python Minor version.")
      | inl minorVersion => ret (majorVersion, minorVersion, None)
      end
    end
  end.

(** *** makeVenv and its two strategies *)

Definition makeVenvViaModule (cfg : VenvConfig) : M W (option error) :=
  let cmd := exec.Command (Python cfg) ["-m"; "venv"; Path cfg] in
  '(_, _, err) <- cmdRun cmd ;;
  match err with
  | Some _ => ret err
  | None => ret None
  end.

Definition makeVenvLegacy (cfg : VenvConfig) : M W (option error) :=
  found <- LookPath "virtualenv" ;;
  match found with
  | inr e => ret (errors.Wrap (Some e) "virtualenv not found in path")
  | inl venvExecutable =>
    let cmd := exec.Command venvExecutable ["--python"; Python cfg; Path cfg] in
    '(_, _, err) <- cmdRun cmd ;;
    match err with
    | Some _ => ret err
    | None => ret None
    end
  end.

Definition makeVenv (cfg : VenvConfig) : M W (option error) :=
  '(majorV, minorV, err) <- getPythonVersion (Python cfg) ;;
  match err with
  | Some _ =>
    ret (errors.Wrap err "Unable to determine python version for specified interpreter.")
  | None =>
    err <- (if (majorV >=? 3) && (minorV >=? 3)
            then makeVenvViaModule cfg
            else makeVenvLegacy cfg) ;;
    match err with
    | Some _ => ret (errors.Wrap err "unable to create virtual environment")
    | None => ret None
    end
  end.

(** *** Ensure *)

Definition Ensure (c : VenvConfig) : M W (option error) :=
  err <- Stat (Path c) ;;
  if IsNotExist err then
    err <- makeVenv c ;;
    match err with
    | Some _ => ret err
    | None => ret None
    end
  else ret None.

(** *** Run *)

(** The update of [PATH]: the [bin] directory of the environment is put
    in front unless [PATH] contains it already (as a substring). *)
Definition addVenvPath (c : VenvCommand) (path : string) : M W unit :=
  let venvPath := sys_Join sys [Path (Config c); "bin"] in
  if negb (Contains path venvPath)
  then Setenv "PATH" (sys_Join sys [Path (Config c); "bin"] ++ ":" ++ path)
  else ret tt.

(** The command that [Run] builds: the binary under [bin], bound to the
    context with the timeout, its directory and its environment. *)
Definition venvCmd (c : VenvCommand) (environ : list string) : exec.Cmd :=
  let cmd := exec.CommandContext venvCommandTimeout
               (sys_Join sys [Path (Config c); "bin"; Binary c]) (Args c) in
  let cmd := if negb (Cwd c =? "")%string then exec.setDir (Cwd c) cmd else cmd in
  exec.setEnv (environ ++ Env c) cmd.

Definition Run (c : VenvCommand) : M W VenvCommandRunOutput :=
  let CommandOutput :=
    {| Stdout := ""; Stderr := ""; Error := None; Exitcode := -1 |} in
  lookup <- LookupEnv "PATH" ;;
  match lookup with
  | None =>
    ret (setError (errors.New "Unable to lookup the $PATH env variable") CommandOutput)
  | Some path =>
    addVenvPath c path ;;
    environ <- Environ ;;
    let cmd := venvCmd c environ in
    if StreamOutput c then
      (* StdoutPipe, StderrPipe: their errors are dropped *)
      let cmd := exec.setOut exec.Pipes cmd in
      err <- cmdStart cmd ;;
      match err with
      | Some _ =>
        ret (setError (errors.Wrap err "unable to start command") CommandOutput)
      | None =>
        (* the two goroutines forward the lines of the pipes to the
           standard output of the program; they do not touch the result *)
        err <- cmdWait cmd ;;
        match err with
        | Some e =>
          let exitError := asExitError e in
          let CommandOutput :=
            setError (errors.Wrap err "unable to complete command") CommandOutput in
          code <- ExitCode exitError ;;
          ret (setExitcode code CommandOutput)
        | None => ret (setExitcode 0 CommandOutput)
        end
      end
    else
      let cmd := exec.setOut exec.Buffers cmd in
      '(stdout, stderr, err) <- cmdRun cmd ;;
      let CommandOutput := setStderr stderr CommandOutput in
      let CommandOutput := setStdout stdout CommandOutput in
      ctxErr <- CtxErr ;;
      match ctxErr with
      | Some DeadlineExceeded =>
        ret (setError (errors.Wrap err "Execution timed out") CommandOutput)
      | _ =>
        match err with
        | Some e =>
          let CommandOutput :=
            match asExitError e with
            | Some code => setExitcode code CommandOutput
            | None => CommandOutput
            end in
          ret (setError (errors.Wrap err "unable to complete command") CommandOutput)
        | None => ret (setExitcode 0 CommandOutput)
        end
      end
  end.

(** *** Update *)

Definition Update (c : VenvConfig) (requirementsFile : string) : M W (option error) :=
  let vCmd :=
    {| Config := c; Binary := "pip"; Args := ["install"; "-r"; requirementsFile];
       Cwd := ""; Env := []; StreamOutput := false |} in
  venvCommandOutput <- Run vCmd ;;
  match Error venvCommandOutput with
  | Some _ => ret (errors.Wrap (Error venvCommandOutput) "unable to update virtualenv")
  | None => ret None
  end.

End Program.

(** ** The error kinds of the specification

    venv.go has no error types: an error is told from another by the message
    that [errors.New] or [errors.Wrap] put on top of it. [errorKind] reads the
    kind of the specification off the outermost message. *)

Inductive ErrorKind : Type :=
| VersionDetectionError
| VersionParseError
| InterpreterNotFoundError
| CreationFailedError
| UpdateError
| EnvironmentLookupError
| StartError
| TimeoutError
| ExecutionFailedError.

Definition kindOfMessage (msg : string) : option ErrorKind :=
  if (msg =? "Unable to determine Python version.")%string then Some VersionDetectionError
  else if (msg =? "Unable to parse Python Major version.")%string then Some VersionParseError
  else if (msg =? "Unable to parse Python Minor version.")%string then Some VersionParseError
  else if (msg =? "virtualenv not found in path")%string then Some InterpreterNotFoundError
  else if (msg =? "unable to create virtual environment")%string then Some CreationFailedError
  else if (msg =? "unable to update virtualenv")%string then Some UpdateError
  else if (msg =? "Unable to lookup the $PATH env variable")%string then Some EnvironmentLookupError
  else if (msg =? "unable to start command")%string then Some StartError
  else if (msg =? "Execution timed out")%string then Some TimeoutError
  else if (msg =? "unable to complete command")%string then Some ExecutionFailedError
  else None.

Definition errorKind (err : option error) : option ErrorKind :=
  match err with
  | Some (fundamental msg) => kindOfMessage msg
  | Some (withMessage _ msg) => kindOfMessage msg
  | _ => None
  end.

(** ** Points of a run that the statements name *)

Section Points.

Context {W : Type} (sys : Sys W).

(** The state in which [Run] launches the child: [PATH] was found to be
    [path] and has been updated. *)
Definition launchState (c : VenvCommand) (path : string) (s : State W) : State W :=
  fst (addVenvPath sys c path s).

(** The command that [Run] launches from the state [s1], in each mode. *)
Definition launchCmd (c : VenvCommand) (s1 : State W) : exec.Cmd :=
  exec.setOut (if StreamOutput c then exec.Pipes else exec.Buffers)
              (venvCmd sys c (sys_Environ sys (world s1))).

(** The error of the call that starts the child: [cmd.Start()] in
    streaming mode, [cmd.Run()] in buffered mode. *)
Definition launchError (c : VenvCommand) (s1 : State W) : option error :=
  if StreamOutput c
  then snd (sys_Start sys (launchCmd c s1) (world s1))
  else snd (snd (sys_Run sys (launchCmd c s1) (world s1))).

(** The two creation strategies, as the commands they run. *)
Definition moduleCmd (cfg : VenvConfig) : exec.Cmd :=
  exec.Command (Python cfg) ["-m"; "venv"; Path cfg].

Definition legacyCmd (venvExecutable : string) (cfg : VenvConfig) : exec.Cmd :=
  exec.Command venvExecutable ["--python"; Python cfg; Path cfg].

End Points.

(** ** A scripted system

    A world in which every answer of the system is written down in advance;
    it gives the concrete runs of the examples. *)

Record Script : Type := {
  sc_PATH : option string;
  sc_stat : option error;
  sc_lookPath : string + error;
  sc_output : string * option error;
  sc_run : string * string * option error;
  sc_start : option error;
  sc_wait : option error;
  sc_ctx : option error
}.

(** [filepath.Join] on elements that are clean already: the non-empty ones,
    with a slash in between. *)
Fixpoint joinSlash (elem : list string) : string :=
  match elem with
  | [] => ""
  | e :: rest =>
    if (e =? "")%string then joinSlash rest
    else
      match joinSlash rest with
      | EmptyString => e
      | r => e ++ "/" ++ r
      end
  end.

Definition scriptSetenv (key value : string) (w : Script) : Script :=
  if (key =? "PATH")%string then
    {| sc_PATH := Some value; sc_stat := sc_stat w; sc_lookPath := sc_lookPath w;
       sc_output := sc_output w; sc_run := sc_run w; sc_start := sc_start w;
       sc_wait := sc_wait w; sc_ctx := sc_ctx w |}
  else w.

Definition scriptSys : Sys Script := {|
  sys_Stat := fun _ w => sc_stat w;
  sys_LookupEnv := fun key w => if (key =? "PATH")%string then sc_PATH w else None;
  sys_Setenv := scriptSetenv;
  sys_Environ := fun w => match sc_PATH w with
                          | Some p => ["PATH=" ++ p]
                          | None => []
                          end;
  sys_LookPath := fun _ w => sc_lookPath w;
  sys_Join := joinSlash;
  sys_Output := fun _ w => (w, sc_output w);
  sys_Run := fun _ w => (w, sc_run w);
  sys_Start := fun _ w => (w, sc_start w);
  sys_Wait := fun _ w => (w, sc_wait w);
  sys_CtxErr := sc_ctx
|}.

(** A world whose interpreter prints [output] for [--version], in which every
    child ends well, [PATH] is [/usr/bin] and the root path does not exist. *)
Definition quiet (output : string) : Script := {|
  sc_PATH := Some "/usr/bin";
  sc_stat := Some (ErrNotExist "/opt/venv");
  sc_lookPath := inl "/usr/bin/virtualenv";
  sc_output := (output, None);
  sc_run := ("", "", None);
  sc_start := None;
  sc_wait := None;
  sc_ctx := None
|}.

Definition start {W} (w : W) : State W := mkState w [].

Definition demoConfig : VenvConfig := {| Path := "/opt/venv"; Python := "/usr/bin/python3" |}.

Definition demoCommand (stream : bool) : VenvCommand := {|
  Config := demoConfig; Binary := "ansible-playbook"; Args := ["site.yml"];
  Cwd := ""; Env := []; StreamOutput := stream
|}.

(** ** Worlds of the examples *)

(** A child that is killed when the deadline fires: the process layer
    reports the exit error of a killed process (exit code -1), the context
    reports the deadline, and the child had written [partial] before. *)
Definition killedAtDeadline (partial : string) : Script := {|
  sc_PATH := Some "/usr/bin";
  sc_stat := None;
  sc_lookPath := inl "/usr/bin/virtualenv";
  sc_output := ("", None);
  sc_run := (partial, "", Some (ExitError (-1)));
  sc_start := None;
  sc_wait := Some (ExitError (-1));
  sc_ctx := Some DeadlineExceeded
|}.

(** A child whose [Wait] fails with an error that is no exit error. *)
Definition waitFails (e : error) : Script := {|
  sc_PATH := Some "/usr/bin";
  sc_stat := None;
  sc_lookPath := inl "/usr/bin/virtualenv";
  sc_output := ("", None);
  sc_run := ("", "", Some e);
  sc_start := None;
  sc_wait := Some e;
  sc_ctx := None
|}.

(** A child that printed on both streams and then exited with status 2. *)
Definition exitsWith2 : Script := {|
  sc_PATH := Some "/opt/venv/bin:/usr/bin";
  sc_stat := None;
  sc_lookPath := inl "/usr/bin/virtualenv";
  sc_output := ("", None);
  sc_run := ("PLAY [all]", "ERROR! no hosts matched", Some (ExitError 2));
  sc_start := None;
  sc_wait := Some (ExitError 2);
  sc_ctx := None
|}.

(** The binary is not there: starting it fails with "no such file or
    directory", in [cmd.Start()] as in [cmd.Run()]. *)
Definition missingBinary : Script := {|
  sc_PATH := Some "/usr/bin";
  sc_stat := None;
  sc_lookPath := inl "/usr/bin/virtualenv";
  sc_output := ("", None);
  sc_run := ("", "", Some (ErrNotExist "/opt/venv/bin/ansible-playbook"));
  sc_start := Some (ErrNotExist "/opt/venv/bin/ansible-playbook");
  sc_wait := None;
  sc_ctx := None
|}.

(** ** Creation strategies, as seen in the events *)

(** What [makeVenv] does after the detection of the version, for each
    strategy: the module strategy runs the interpreter with [-m venv]; the
    legacy strategy looks [virtualenv] up on the search path and, when it is
    found, runs it with [--python]. *)
Definition selectsModule (cfg : VenvConfig) (new : list Event) : Prop :=
  new = [EvRun (moduleCmd cfg)].

Definition selectsLegacy (cfg : VenvConfig) (new : list Event) : Prop :=
  new = [EvLookPath "virtualenv"]
  \/ exists venvExecutable,
       new = [EvLookPath "virtualenv"; EvRun (legacyCmd venvExecutable cfg)].

(** ** Well-formed version lines: digits and their value *)

Fixpoint allDigits (s : string) : bool :=
  match s with
  | EmptyString => true
  | String c t => isDigit c && allDigits t
  end.

Definition headIsDigit (s : string) : bool :=
  match s with
  | EmptyString => false
  | String c _ => isDigit c
  end.

(** The number that a run of digits writes in base 10, after [n]. *)
Fixpoint decimal (s : string) (n : Z) : Z :=
  match s with
  | EmptyString => n
  | String c t => decimal t (n * 10 + (byte c - 48))
  end.

(** ** The shape of a match *)

(** The groups of a match: one digit, then a non-empty run of digits. *)
Definition versionGroups (m : list string) : Prop :=
  exists whole d ds patch,
    m = [whole; String d EmptyString; ds; patch]
    /\ isDigit d = true /\ ds <> EmptyString /\ allDigits ds = true.

(** ** More worlds for the examples *)

(** The interpreter cannot be run. *)
Definition noInterpreter : Script := {|
  sc_PATH := Some "/usr/bin";
  sc_stat := Some (ErrNotExist "/opt/venv");
  sc_lookPath := inl "/usr/bin/virtualenv";
  sc_output := ("", Some (ErrNotExist "/usr/bin/python3"));
  sc_run := ("", "", None);
  sc_start := None;
  sc_wait := None;
  sc_ctx := None
|}.

(** A Python 2 that printed its version on the standard output, on a
    machine without [virtualenv]. *)
Definition noVirtualenv : Script := {|
  sc_PATH := Some "/usr/bin";
  sc_stat := Some (ErrNotExist "/opt/venv");
  sc_lookPath := inr (OsError "exec: virtualenv: executable file not found in $PATH");
  sc_output := ("Python 2.7.18", None);
  sc_run := ("", "", None);
  sc_start := None;
  sc_wait := None;
  sc_ctx := None
|}.

(** The interpreter prints [output]; the creation command exits with 1. *)
Definition creationFails (output : string) : Script := {|
  sc_PATH := Some "/usr/bin";
  sc_stat := Some (ErrNotExist "/opt/venv");
  sc_lookPath := inl "/usr/bin/virtualenv";
  sc_output := (output, None);
  sc_run := ("", "", Some (ExitError 1));
  sc_start := None;
  sc_wait := None;
  sc_ctx := None
|}.

(** [os.Stat] on the root path fails, but not because the path is missing. *)
Definition statDenied : Script := {|
  sc_PATH := Some "/usr/bin";
  sc_stat := Some (OsError "stat /opt/venv: permission denied");
  sc_lookPath := inl "/usr/bin/virtualenv";
  sc_output := ("Python 3.8.10", None);
  sc_run := ("", "", None);
  sc_start := None;
  sc_wait := None;
  sc_ctx := None
|}.

(** [PATH] is not set. *)
Definition noPATH : Script := {|
  sc_PATH := None;
  sc_stat := None;
  sc_lookPath := inl "/usr/bin/virtualenv";
  sc_output := ("", None);
  sc_run := ("", "", None);
  sc_start := None;
  sc_wait := None;
  sc_ctx := None
|}.

(** A child that prints [out] and ends well, in a world whose [PATH] is
    [path]. *)
Definition prints (path out : string) : Script := {|
  sc_PATH := Some path;
  sc_stat := None;
  sc_lookPath := inl "/usr/bin/virtualenv";
  sc_output := ("", None);
  sc_run := (out, "", None);
  sc_start := None;
  sc_wait := None;
  sc_ctx := None
|}.

(** A child that ended well at the very moment the deadline fired: the
    process layer has no error, the context has one. *)
Definition endsAtDeadline : Script := {|
  sc_PATH := Some "/usr/bin";
  sc_stat := None;
  sc_lookPath := inl "/usr/bin/virtualenv";
  sc_output := ("", None);
  sc_run := ("ok", "", None);
  sc_start := None;
  sc_wait := None;
  sc_ctx := Some DeadlineExceeded
|}.

(** ** Shape of a run of [Run] *)

Section RunShape.

Context {W : Type} (sys : Sys W).

Lemma addVenvPath_returns (c : VenvCommand) (path : string) (s : State W) :
  addVenvPath sys c path s = (launchState sys c path s, Returned tt).
Proof.
  unfold launchState, addVenvPath.
  destruct (negb (Contains path (sys_Join sys [Path (Config c); "bin"]))); reflexivity.
Qed.

(** Only [PATH] is set, at most once, and the world changes only by that. *)
Lemma launchState_events (c : VenvCommand) (path : string) (s : State W) :
  events (launchState sys c path s) = events s \/
  exists v, events (launchState sys c path s) = (events s ++ [EvSetenv "PATH" v])%list.
Proof.
  unfold launchState, addVenvPath.
  destruct (negb (Contains path (sys_Join sys [Path (Config c); "bin"]))); simpl.
  - right. eexists. reflexivity.
  - left. reflexivity.
Qed.

Lemma Run_without_PATH (c : VenvCommand) (s : State W) :
  sys_LookupEnv sys "PATH" (world s) = None ->
  Run sys c s =
  (s, Returned {| Stdout := ""; Stderr := "";
                  Error := Some (fundamental "Unable to lookup the $PATH env variable");
                  Exitcode := -1 |}).
Proof.
  intros Hpath. unfold Run, bind, LookupEnv. rewrite Hpath. reflexivity.
Qed.

(** Buffered mode: one [cmd.Run()], then the result is built from the
    buffers, the error of the call and the error of the context. *)
Lemma Run_buffered (c : VenvCommand) (s : State W) (path : string) :
  StreamOutput c = false ->
  sys_LookupEnv sys "PATH" (world s) = Some path ->
  let s1 := launchState sys c path s in
  let cmd := launchCmd sys c s1 in
  let r := sys_Run sys cmd (world s1) in
  let stdout := fst (fst (snd r)) in
  let stderr := snd (fst (snd r)) in
  let err := snd (snd r) in
  Run sys c s =
  (mkState (fst r) (events s1 ++ [EvRun cmd]),
   Returned
     match sys_CtxErr sys (fst r) with
     | Some DeadlineExceeded =>
       {| Stdout := stdout; Stderr := stderr;
          Error := errors.Wrap err "Execution timed out"; Exitcode := -1 |}
     | _ =>
       match err with
       | Some e =>
         {| Stdout := stdout; Stderr := stderr;
            Error := Some (withMessage e "unable to complete command");
            Exitcode := match asExitError e with Some code => code | None => -1 end |}
       | None =>
         {| Stdout := stdout; Stderr := stderr; Error := None; Exitcode := 0 |}
       end
     end).
Proof.
  intros Hmode Hpath s1 cmd r stdout stderr err.
  unfold Run, bind, LookupEnv. rewrite Hpath, addVenvPath_returns, Hmode.
  fold s1. unfold Environ, cmdRun, CtxErr. cbn [world events].
  assert (Hcmd : exec.setOut exec.Buffers (venvCmd sys c (sys_Environ sys (world s1))) = cmd).
  { unfold cmd, launchCmd. rewrite Hmode. reflexivity. }
  rewrite Hcmd. subst stdout stderr err. fold r.
  destruct r as [w2 [[out errb] e]]. cbn [fst snd world events].
  destruct (sys_CtxErr sys w2) as [[ | | | | | | ]|];
    (destruct e as [e|]; [destruct (asExitError e)|]; reflexivity).
Qed.

(** Streaming mode: [cmd.Start()], then [cmd.Wait()]; the exit code is
    read through the unchecked type assertion. *)
Lemma Run_streaming (c : VenvCommand) (s : State W) (path : string) :
  StreamOutput c = true ->
  sys_LookupEnv sys "PATH" (world s) = Some path ->
  let s1 := launchState sys c path s in
  let cmd := launchCmd sys c s1 in
  let st := sys_Start sys cmd (world s1) in
  let wt := sys_Wait sys cmd (fst st) in
  Run sys c s =
  match snd st with
  | Some e =>
    (mkState (fst st) (events s1 ++ [EvStart cmd]),
     Returned {| Stdout := ""; Stderr := "";
                 Error := Some (withMessage e "unable to start command");
                 Exitcode := -1 |})
  | None =>
    (mkState (fst wt) ((events s1 ++ [EvStart cmd]) ++ [EvWait cmd]),
     match snd wt with
     | Some (ExitError code) =>
       Returned {| Stdout := ""; Stderr := "";
                   Error := Some (withMessage (ExitError code) "unable to complete command");
                   Exitcode := code |}
     | Some _ =>
       Panicked "runtime error: invalid memory address or nil pointer dereference"
     | None =>
       Returned {| Stdout := ""; Stderr := ""; Error := None; Exitcode := 0 |}
     end)
  end.
Proof.
  intros Hmode Hpath s1 cmd st wt.
  unfold Run, bind, LookupEnv. rewrite Hpath, addVenvPath_returns, Hmode.
  fold s1. unfold Environ, cmdStart, cmdWait. cbn [world events].
  assert (Hcmd : exec.setOut exec.Pipes (venvCmd sys c (sys_Environ sys (world s1))) = cmd).
  { unfold cmd, launchCmd. rewrite Hmode. reflexivity. }
  rewrite Hcmd. subst wt. fold st.
  destruct st as [w2 [e|]]; cbn [fst snd world events]; [reflexivity|].
  destruct (sys_Wait sys cmd w2) as [w3 [e|]]; cbn [fst snd world events]; [|reflexivity].
  destruct e; reflexivity.
Qed.

End RunShape.

(** ** Version detection *)

Example getPythonVersion_3_8_10 :
  snd (getPythonVersion scriptSys "/usr/bin/python3" (start (quiet "Python 3.8.10")))
  = Returned (3, 8, None).
Proof. reflexivity. Qed.

Example getPythonVersion_3_11 :
  snd (getPythonVersion scriptSys "/usr/bin/python3" (start (quiet "Python 3.11")))
  = Returned (3, 11, None).
Proof. reflexivity. Qed.

(** A minor number that does not fit an [int] is a parse error. *)
Example getPythonVersion_huge_minor :
  snd (getPythonVersion scriptSys "/usr/bin/python3"
         (start (quiet "Python 3.9223372036854775808")))
  = Returned (-1, 1,
              Some (withMessage (NumError "9223372036854775808" ErrRange)
                                "Unable to parse Python Minor version.")).
Proof. reflexivity. Qed.

Section Version.

Context {W : Type} (sys : Sys W).

(** When the interpreter ran and its output has no match, [matches] is the
    nil slice and [matches[1]] panics: no error is returned. *)
Lemma getPythonVersion_unmatched (interpreter : string) (s : State W) :
  let cmd := exec.Command interpreter ["--version"] in
  let r := sys_Output sys cmd (world s) in
  snd (snd r) = None ->
  FindStringSubmatch (fst (snd r)) = [] ->
  getPythonVersion sys interpreter s =
  (mkState (fst r) (events s ++ [EvOutput cmd]),
   Panicked "runtime error: index out of range").
Proof.
  intros cmd r Herr Hnil.
  unfold getPythonVersion, bind, cmdOutput. fold cmd. fold r.
  destruct r as [w [out err]]. cbn [fst snd] in *. subst err.
  rewrite Hnil. reflexivity.
Qed.

(** When the output has a match whose first two groups are read by [Atoi]
    as [major] and [minor], these are returned and no error. *)
Lemma getPythonVersion_matched (interpreter : string) (s : State W)
      (whole m1 m2 m3 : string) (major minor : Z) :
  let cmd := exec.Command interpreter ["--version"] in
  let r := sys_Output sys cmd (world s) in
  snd (snd r) = None ->
  FindStringSubmatch (fst (snd r)) = [whole; m1; m2; m3] ->
  Atoi m1 = inl major ->
  Atoi m2 = inl minor ->
  getPythonVersion sys interpreter s =
  (mkState (fst r) (events s ++ [EvOutput cmd]), Returned (major, minor, None)).
Proof.
  intros cmd r Herr Hm H1 H2.
  unfold getPythonVersion, bind, cmdOutput. fold cmd. fold r.
  destruct r as [w [out err]]. cbn [fst snd] in *. subst err.
  rewrite Hm. cbn [index nth_error ret]. rewrite H1.
  cbn [index nth_error ret]. rewrite H2. reflexivity.
Qed.

End Version.

(** *** Well-formed version lines

    The output starts with [Python X.Y], where [X] is one digit and [Y] a
    run of digits that ends there. *)

Lemma isDigit_bounds (c : ascii) : isDigit c = true -> 0 <= byte c - 48 <= 9.
Proof.
  unfold isDigit. intros H. apply andb_true_iff in H. destruct H as [H1 H2].
  apply Z.leb_le in H1, H2. lia.
Qed.

Lemma decimal_ge (s : string) : forall n, 0 <= n -> allDigits s = true -> n <= decimal s n.
Proof.
  induction s as [|c t IH]; intros n Hn Hall; cbn [decimal].
  - lia.
  - cbn [allDigits] in Hall. apply andb_true_iff in Hall. destruct Hall as [Hc Ht].
    pose proof (isDigit_bounds c Hc) as Hb.
    assert (Hle : n * 10 + (byte c - 48) <= decimal t (n * 10 + (byte c - 48))).
    { apply IH; [lia | exact Ht]. }
    lia.
Qed.

Lemma parseDigits_decimal (s : string) :
  forall n, 0 <= n -> allDigits s = true -> decimal s n <= maxUint64 ->
            parseDigits s n = inl (decimal s n).
Proof.
  induction s as [|c t IH]; intros n Hn Hall Hmax; cbn [parseDigits decimal] in *.
  - reflexivity.
  - cbn [allDigits] in Hall. apply andb_true_iff in Hall. destruct Hall as [Hc Ht].
    rewrite Hc. pose proof (isDigit_bounds c Hc) as Hb.
    assert (Hle : n * 10 + (byte c - 48) <= decimal t (n * 10 + (byte c - 48))).
    { apply decimal_ge; [lia | exact Ht]. }
    destruct (n * 10 + (byte c - 48) >? maxUint64) eqn:Hover.
    + apply Z.gtb_lt in Hover. lia.
    + apply IH; [lia | exact Ht | exact Hmax].
Qed.

Lemma digit_is_no_sign (c : ascii) :
  isDigit c = true -> Ascii.eqb c "-" = false /\ Ascii.eqb c "+" = false.
Proof.
  intros Hc. split.
  - destruct (Ascii.eqb_spec c "-") as [->|]; [discriminate Hc | reflexivity].
  - destruct (Ascii.eqb_spec c "+") as [->|]; [discriminate Hc | reflexivity].
Qed.

(** [Atoi] reads a non-empty run of digits as its decimal value, provided
    the value fits an [int]. *)
Lemma Atoi_decimal (s : string) :
  s <> EmptyString -> allDigits s = true -> decimal s 0 <= maxInt ->
  Atoi s = inl (decimal s 0).
Proof.
  intros Hne Hall Hmax. destruct s as [|c t]; [congruence|].
  assert (Hc : isDigit c = true).
  { cbn [allDigits] in Hall. apply andb_true_iff in Hall. tauto. }
  destruct (digit_is_no_sign c Hc) as [Hminus Hplus].
  unfold Atoi. rewrite Hminus, Hplus. cbn [orb].
  assert (Hu : maxInt <= maxUint64) by (unfold maxInt, maxUint64; lia).
  rewrite (parseDigits_decimal (String c t) 0); [| lia | exact Hall | lia].
  destruct (decimal (String c t) 0 >? maxInt) eqn:Hover; [|reflexivity].
  apply Z.gtb_lt in Hover. lia.
Qed.

Lemma spanDigits_app (ds rest : string) :
  allDigits ds = true -> headIsDigit rest = false ->
  spanDigits (ds ++ rest) = (ds, rest).
Proof.
  intros Hall Hrest. induction ds as [|c t IH]; cbn [append spanDigits].
  - destruct rest as [|c t]; [reflexivity|].
    cbn [headIsDigit] in Hrest. cbn [spanDigits]. rewrite Hrest. reflexivity.
  - cbn [allDigits] in Hall. apply andb_true_iff in Hall. destruct Hall as [Hc Ht].
    rewrite Hc, (IH Ht). reflexivity.
Qed.

(** On a line [Python X.Y...] the match is at the head of the line, and
    its first two groups are [X] and [Y]. *)
Lemma FindStringSubmatch_version (d : ascii) (ds rest : string) :
  isDigit d = true -> ds <> EmptyString -> allDigits ds = true ->
  headIsDigit rest = false ->
  exists whole patch,
    FindStringSubmatch ("Python " ++ String d (String "." (ds ++ rest)))
    = [whole; String d EmptyString; ds; patch].
Proof.
  intros Hd Hne Hall Hrest.
  assert (Hhere : exists whole patch,
            matchHere ("Python " ++ String d (String "." (ds ++ rest)))
            = Some [whole; String d EmptyString; ds; patch]).
  { unfold matchHere. cbn [append stripPrefix Ascii.eqb Bool.eqb]. rewrite Hd.
    change (byte "." =? 10) with false. cbv iota.
    change (runeWidth (String "." (ds ++ rest))) with 1%nat.
    cbn [take drop]. rewrite (spanDigits_app ds rest Hall Hrest).
    destruct ds as [|c t]; [congruence|].
    do 2 eexists. reflexivity. }
  destruct Hhere as (whole & patch & Hhere).
  exists whole, patch.
  change ("Python " ++ String d (String "." (ds ++ rest)))
    with (String "P" ("ython " ++ String d (String "." (ds ++ rest)))) in *.
  cbn [FindStringSubmatch]. rewrite Hhere. reflexivity.
Qed.

(** X1. Version detection on a well-formed line: on such a line, with
    [Y] in the range of [int], getPythonVersion returns [(X, Y)] and no
    error. *)
Lemma getPythonVersion_well_formed {W : Type} (sys : Sys W) (interpreter : string)
      (s : State W) (d : ascii) (ds rest : string) :
  let cmd := exec.Command interpreter ["--version"] in
  let r := sys_Output sys cmd (world s) in
  snd r = ("Python " ++ String d (String "." (ds ++ rest)), None) ->
  isDigit d = true -> ds <> EmptyString -> allDigits ds = true ->
  headIsDigit rest = false -> decimal ds 0 <= maxInt ->
  getPythonVersion sys interpreter s =
  (mkState (fst r) (events s ++ [EvOutput cmd]),
   Returned (byte d - 48, decimal ds 0, None)).
Proof.
  intros cmd r Hout Hd Hne Hall Hrest Hmax.
  destruct (FindStringSubmatch_version d ds rest Hd Hne Hall Hrest)
    as (whole & patch & Hm).
  apply (getPythonVersion_matched sys interpreter s whole (String d EmptyString) ds patch).
  - fold cmd. fold r. rewrite Hout. reflexivity.
  - fold cmd. fold r. rewrite Hout. exact Hm.
  - rewrite (Atoi_decimal (String d EmptyString)).
    + cbn [decimal]. f_equal.
    + discriminate.
    + cbn [allDigits]. rewrite Hd. reflexivity.
    + cbn [decimal]. pose proof (isDigit_bounds d Hd). unfold maxInt. lia.
  - apply Atoi_decimal; assumption.
Qed.

(** C1. The output of the interpreter matches no version: Python 2 prints
    its version on the standard error, so that the captured standard output
    is empty; a major number of two digits has no match either. In both runs
    getPythonVersion does not return a parse error: it panics on the index
    into the nil slice of matches. *)
Theorem getPythonVersion_panics_on_unmatched_output :
  snd (getPythonVersion scriptSys "/usr/bin/python2" (start (quiet "")))
  = Panicked "runtime error: index out of range"
  /\
  snd (getPythonVersion scriptSys "/usr/bin/python" (start (quiet "Python 10.2")))
  = Panicked "runtime error: index out of range".
Proof. split; reflexivity. Qed.

(** ** Timeouts and wait failures in streaming mode *)

Section Streaming.

Context {W : Type} (sys : Sys W).

(** Streaming mode never reports a timeout, whatever the context says. *)
Lemma Run_streaming_never_TimeoutError (c : VenvCommand) (s s' : State W)
      (r : VenvCommandRunOutput) :
  StreamOutput c = true ->
  Run sys c s = (s', Returned r) ->
  errorKind (Error r) <> Some TimeoutError.
Proof.
  intros Hmode Hrun.
  destruct (sys_LookupEnv sys "PATH" (world s)) as [path|] eqn:Hpath.
  - rewrite (Run_streaming sys c s path Hmode Hpath) in Hrun.
    cbv zeta in Hrun.
    destruct (snd (sys_Start sys _ _)) as [e|].
    + inversion Hrun; subst. cbn. discriminate.
    + destruct (snd (sys_Wait sys _ _)) as [[ | | | | | | ]|];
        inversion Hrun; subst; cbn; discriminate.
  - rewrite (Run_without_PATH sys c s Hpath) in Hrun.
    inversion Hrun; subst. cbn. discriminate.
Qed.

(** A wait error of another type than the exit error makes [Run] panic. *)
Lemma Run_streaming_wait_panics (c : VenvCommand) (s : State W) (path : string)
      (e : error) :
  StreamOutput c = true ->
  sys_LookupEnv sys "PATH" (world s) = Some path ->
  let s1 := launchState sys c path s in
  let cmd := launchCmd sys c s1 in
  snd (sys_Start sys cmd (world s1)) = None ->
  snd (sys_Wait sys cmd (fst (sys_Start sys cmd (world s1)))) = Some e ->
  asExitError e = None ->
  snd (Run sys c s)
  = Panicked "runtime error: invalid memory address or nil pointer dereference".
Proof.
  intros Hmode Hpath s1 cmd Hstart Hwait Hcast.
  rewrite (Run_streaming sys c s path Hmode Hpath). cbv zeta.
  fold s1. fold cmd. rewrite Hstart, Hwait.
  destruct e; try reflexivity. discriminate.
Qed.

End Streaming.

(** C2. Streaming mode, the deadline fires and the child is killed: the
    error of the result is the generic "unable to complete command", which
    is an ExecutionFailedError and not a TimeoutError. On the same world the
    buffered mode does report the timeout. *)
Theorem Run_streaming_timeout_is_ExecutionFailedError :
  snd (Run scriptSys (demoCommand true) (start (killedAtDeadline "")))
  = Returned {| Stdout := ""; Stderr := "";
                Error := Some (withMessage (ExitError (-1)) "unable to complete command");
                Exitcode := -1 |}
  /\ errorKind (Some (withMessage (ExitError (-1)) "unable to complete command"))
     = Some ExecutionFailedError
  /\ snd (Run scriptSys (demoCommand false) (start (killedAtDeadline "")))
     = Returned {| Stdout := ""; Stderr := "";
                   Error := Some (withMessage (ExitError (-1)) "Execution timed out");
                   Exitcode := -1 |}
  /\ errorKind (Some (withMessage (ExitError (-1)) "Execution timed out"))
     = Some TimeoutError.
Proof. repeat split; reflexivity. Qed.

(** C10. Streaming mode, [Wait] returns an error that is no exit error (here
    the error of the context; a failed wait system call is another): the
    type assertion yields the nil pointer and reading the exit code through
    it panics. The buffered branch checks the assertion. *)
Theorem Run_streaming_panics_on_other_wait_error :
  snd (Run scriptSys (demoCommand true) (start (waitFails DeadlineExceeded)))
  = Panicked "runtime error: invalid memory address or nil pointer dereference"
  /\
  snd (Run scriptSys (demoCommand true)
         (start (waitFails (OsError "wait: no child processes"))))
  = Panicked "runtime error: invalid memory address or nil pointer dereference"
  /\
  snd (Run scriptSys (demoCommand false)
         (start (waitFails (OsError "wait: no child processes"))))
  = Returned {| Stdout := ""; Stderr := "";
                Error := Some (withMessage (OsError "wait: no child processes")
                                           "unable to complete command");
                Exitcode := -1 |}.
Proof. repeat split; reflexivity. Qed.

(** ** Buffered mode *)

(** C3. Buffered mode, [PATH] is set, the deadline of the context has fired
    when [cmd.Run()] returns, and the process layer reports an error [e],
    whichever it is: [Run] returns, the error of the result is [e] under
    "Execution timed out", a TimeoutError and not an ExecutionFailedError,
    and the exit code is left at -1. *)
Theorem Run_buffered_timeout {W : Type} (sys : Sys W) (c : VenvCommand)
        (s : State W) (path : string) (w2 : W) (out errb : string) (e : error) :
  StreamOutput c = false ->
  sys_LookupEnv sys "PATH" (world s) = Some path ->
  let s1 := launchState sys c path s in
  sys_Run sys (launchCmd sys c s1) (world s1) = (w2, (out, errb, Some e)) ->
  sys_CtxErr sys w2 = Some DeadlineExceeded ->
  exists s2 r,
    Run sys c s = (s2, Returned r)
    /\ Error r = Some (withMessage e "Execution timed out")
    /\ errorKind (Error r) = Some TimeoutError
    /\ errorKind (Error r) <> Some ExecutionFailedError
    /\ Exitcode r = -1.
Proof.
  intros Hmode Hpath s1 Hrun Hctx.
  rewrite (Run_buffered sys c s path Hmode Hpath). cbv zeta. fold s1.
  rewrite Hrun. cbn [fst snd]. rewrite Hctx.
  do 2 eexists. split; [reflexivity|].
  cbn. repeat split; try reflexivity. discriminate.
Qed.

Lemma Run_buffered_timeout_witness :
  exists s2 r,
    Run scriptSys (demoCommand false) (start (killedAtDeadline "TASK [setup]")) = (s2, Returned r)
    /\ Error r = Some (withMessage (ExitError (-1)) "Execution timed out")
    /\ errorKind (Error r) = Some TimeoutError
    /\ errorKind (Error r) <> Some ExecutionFailedError
    /\ Exitcode r = -1.
Proof.
  apply (Run_buffered_timeout scriptSys (demoCommand false)
           (start (killedAtDeadline "TASK [setup]")) "/usr/bin"
           (scriptSetenv "PATH" "/opt/venv/bin:/usr/bin" (killedAtDeadline "TASK [setup]"))
           "TASK [setup]" "" (ExitError (-1))); reflexivity.
Defined.

(** C9. Buffered mode, [PATH] is set and [cmd.Run()] fails with an error
    [e] (a timeout, a non-zero exit or another failure of the wait): [Run]
    returns a result that carries what the child wrote to its standard
    output and standard error, and a non-nil error built on [e]. *)
Theorem Run_buffered_failure_keeps_output {W : Type} (sys : Sys W) (c : VenvCommand)
        (s : State W) (path : string) (w2 : W) (out errb : string) (e : error) :
  StreamOutput c = false ->
  sys_LookupEnv sys "PATH" (world s) = Some path ->
  let s1 := launchState sys c path s in
  sys_Run sys (launchCmd sys c s1) (world s1) = (w2, (out, errb, Some e)) ->
  exists s2 r,
    Run sys c s = (s2, Returned r)
    /\ Stdout r = out
    /\ Stderr r = errb
    /\ (Error r = Some (withMessage e "Execution timed out")
        \/ Error r = Some (withMessage e "unable to complete command")).
Proof.
  intros Hmode Hpath s1 Hrun.
  rewrite (Run_buffered sys c s path Hmode Hpath). cbv zeta. fold s1.
  rewrite Hrun. cbn [fst snd].
  do 2 eexists. split; [reflexivity|].
  destruct (sys_CtxErr sys w2) as [[ | | | | | | ]|]; cbn; auto.
Qed.

Lemma Run_buffered_failure_keeps_output_witness :
  exists s2 r,
    Run scriptSys (demoCommand false) (start exitsWith2) = (s2, Returned r)
    /\ Stdout r = "PLAY [all]"
    /\ Stderr r = "ERROR! no hosts matched"
    /\ (Error r = Some (withMessage (ExitError 2) "Execution timed out")
        \/ Error r = Some (withMessage (ExitError 2) "unable to complete command")).
Proof.
  apply (Run_buffered_failure_keeps_output scriptSys (demoCommand false)
           (start exitsWith2) "/opt/venv/bin:/usr/bin" exitsWith2); reflexivity.
Defined.

Example Run_buffered_exit_2 :
  snd (Run scriptSys (demoCommand false) (start exitsWith2))
  = Returned {| Stdout := "PLAY [all]"; Stderr := "ERROR! no hosts matched";
                Error := Some (withMessage (ExitError 2) "unable to complete command");
                Exitcode := 2 |}.
Proof. reflexivity. Qed.

(** ** Streaming mode leaves the output fields empty *)

(** C8. In streaming mode every result that [Run] returns has empty
    [Stdout] and [Stderr], whatever the child wrote; and [Run] does return
    a result, except in the one case where the child was started and [Wait]
    gave an error that is no exit error. Hence a result with a non-empty
    output field comes from the buffered mode. *)
Theorem Run_streaming_output_empty {W : Type} (sys : Sys W) (c : VenvCommand)
        (s : State W) :
  StreamOutput c = true ->
  (forall s' r, Run sys c s = (s', Returned r) -> Stdout r = "" /\ Stderr r = "")
  /\
  ((exists s' r, Run sys c s = (s', Returned r))
   \/
   (exists path e,
      sys_LookupEnv sys "PATH" (world s) = Some path
      /\ let s1 := launchState sys c path s in
         let cmd := launchCmd sys c s1 in
         snd (sys_Start sys cmd (world s1)) = None
         /\ snd (sys_Wait sys cmd (fst (sys_Start sys cmd (world s1)))) = Some e
         /\ asExitError e = None)).
Proof.
  intros Hmode.
  destruct (sys_LookupEnv sys "PATH" (world s)) as [path|] eqn:Hpath.
  - rewrite (Run_streaming sys c s path Hmode Hpath). cbv zeta.
    set (s1 := launchState sys c path s). set (cmd := launchCmd sys c s1).
    destruct (snd (sys_Start sys cmd (world s1))) as [e|] eqn:Hstart.
    + split.
      * intros s' r Hrun. inversion Hrun; subst. split; reflexivity.
      * left. do 2 eexists. reflexivity.
    + destruct (snd (sys_Wait sys cmd (fst (sys_Start sys cmd (world s1)))))
        as [e|] eqn:Hwait.
      * split.
        -- intros s' r Hrun. destruct e; inversion Hrun; subst. split; reflexivity.
        -- destruct (asExitError e) as [code|] eqn:Hcast.
           ++ left. destruct e; try discriminate. do 2 eexists. reflexivity.
           ++ right. exists path, e. repeat split; assumption.
      * split.
        -- intros s' r Hrun. inversion Hrun; subst. split; reflexivity.
        -- left. do 2 eexists. reflexivity.
  - rewrite (Run_without_PATH sys c s Hpath). split.
    + intros s' r Hrun. inversion Hrun; subst. split; reflexivity.
    + left. do 2 eexists. reflexivity.
Qed.

Lemma Run_streaming_output_empty_witness :
  StreamOutput (demoCommand true) = true
  /\
  exists s' r,
    Run scriptSys (demoCommand true) (start exitsWith2) = (s', Returned r)
    /\ Stdout r = "" /\ Stderr r = "".
Proof.
  split; [reflexivity|].
  destruct (Run_streaming_output_empty scriptSys (demoCommand true) (start exitsWith2)
              eq_refl) as [Hempty _].
  do 2 eexists. split; [vm_compute; reflexivity|].
  eapply Hempty. vm_compute. reflexivity.
Defined.

Example Run_streaming_exit_2 :
  snd (Run scriptSys (demoCommand true) (start exitsWith2))
  = Returned {| Stdout := ""; Stderr := "";
                Error := Some (withMessage (ExitError 2) "unable to complete command");
                Exitcode := 2 |}.
Proof. reflexivity. Qed.

(** ** A binary that does not exist *)

Example Run_buffered_missing_binary :
  snd (Run scriptSys (demoCommand false) (start missingBinary))
  = Returned {| Stdout := ""; Stderr := "";
                Error := Some (withMessage (ErrNotExist "/opt/venv/bin/ansible-playbook")
                                           "unable to complete command");
                Exitcode := -1 |}.
Proof. reflexivity. Qed.

(** C4, as stated, fails in buffered mode: the start failure of [cmd.Run()]
    is reported as "unable to complete command", an ExecutionFailedError. *)
Lemma Run_buffered_missing_binary_not_StartError :
  ~ (exists s' r,
       Run scriptSys (demoCommand false) (start missingBinary) = (s', Returned r)
       /\ errorKind (Error r) = Some StartError
       /\ Exitcode r = -1).
Proof.
  intros (s' & r & Hrun & Hkind & _).
  vm_compute in Hrun. inversion Hrun; subst r. discriminate Hkind.
Qed.

(** C4, amended. [PATH] is set and the call that starts the child fails
    because the binary does not exist: in either mode [Run] returns a result
    with a non-nil error and exit code -1; in streaming mode that error is
    the start failure under "unable to start command", a StartError. *)
Theorem Run_missing_binary {W : Type} (sys : Sys W) (c : VenvCommand)
        (s : State W) (path name : string) :
  sys_LookupEnv sys "PATH" (world s) = Some path ->
  launchError sys c (launchState sys c path s) = Some (ErrNotExist name) ->
  exists s2 r,
    Run sys c s = (s2, Returned r)
    /\ Exitcode r = -1
    /\ Error r <> None
    /\ (StreamOutput c = true ->
        Error r = Some (withMessage (ErrNotExist name) "unable to start command")
        /\ errorKind (Error r) = Some StartError).
Proof.
  intros Hpath Hlaunch. unfold launchError in Hlaunch.
  destruct (StreamOutput c) eqn:Hmode.
  - rewrite (Run_streaming sys c s path Hmode Hpath). cbv zeta.
    rewrite Hlaunch. do 2 eexists. split; [reflexivity|].
    cbn. repeat split; try reflexivity. discriminate.
  - rewrite (Run_buffered sys c s path Hmode Hpath). cbv zeta.
    rewrite Hlaunch. do 2 eexists. split; [reflexivity|].
    destruct (sys_CtxErr sys _) as [[ | | | | | | ]|]; cbn;
      (split; [reflexivity | split; [discriminate | intros Hstream; discriminate Hstream]]).
Qed.

Lemma Run_missing_binary_witness :
  (exists s2 r,
     Run scriptSys (demoCommand true) (start missingBinary) = (s2, Returned r)
     /\ Exitcode r = -1
     /\ Error r <> None
     /\ (StreamOutput (demoCommand true) = true ->
         Error r = Some (withMessage (ErrNotExist "/opt/venv/bin/ansible-playbook")
                                     "unable to start command")
         /\ errorKind (Error r) = Some StartError)).
Proof.
  apply (Run_missing_binary scriptSys (demoCommand true) (start missingBinary)
           "/usr/bin" "/opt/venv/bin/ansible-playbook"); reflexivity.
Defined.

(** ** Ensure *)

Section Provision.

Context {W : Type} (sys : Sys W).

(** Unless [os.Stat] says that the path does not exist, [Ensure] does
    nothing: same world, no event, no error. *)
Lemma Ensure_skips (c : VenvConfig) (s : State W) :
  IsNotExist (sys_Stat sys (Path c) (world s)) = false ->
  Ensure sys c s = (s, Returned None).
Proof.
  intros Hstat. unfold Ensure, bind, Stat. rewrite Hstat. reflexivity.
Qed.

Lemma makeVenv_after_version (cfg : VenvConfig) (s s1 : State W) (major minor : Z) :
  getPythonVersion sys (Python cfg) s = (s1, Returned (major, minor, None)) ->
  events (fst (makeVenv sys cfg s)) =
  events (fst ((if (major >=? 3) && (minor >=? 3)
                then makeVenvViaModule sys cfg
                else makeVenvLegacy sys cfg) s1)).
Proof.
  intros Hver. unfold makeVenv, bind. rewrite Hver.
  destruct ((if (major >=? 3) && (minor >=? 3)
             then makeVenvViaModule sys cfg
             else makeVenvLegacy sys cfg) s1) as [s2 [[e|]|msg]]; reflexivity.
Qed.

Lemma makeVenvViaModule_events (cfg : VenvConfig) (s1 : State W) :
  events (fst (makeVenvViaModule sys cfg s1)) = (events s1 ++ [EvRun (moduleCmd cfg)])%list.
Proof.
  unfold makeVenvViaModule, bind, cmdRun, moduleCmd.
  destruct (sys_Run sys _ (world s1)) as [w [[out errb] [e|]]]; reflexivity.
Qed.

Lemma makeVenvLegacy_events (cfg : VenvConfig) (s1 : State W) :
  events (fst (makeVenvLegacy sys cfg s1)) = (events s1 ++ [EvLookPath "virtualenv"])%list
  \/ exists venvExecutable,
       events (fst (makeVenvLegacy sys cfg s1))
       = (events s1 ++ [EvLookPath "virtualenv"; EvRun (legacyCmd venvExecutable cfg)])%list.
Proof.
  unfold makeVenvLegacy, bind, LookPath, cmdRun, legacyCmd. cbv zeta. cbn [fst snd world events].
  destruct (sys_LookPath sys "virtualenv" (world s1)) as [exe|e].
  - right. exists exe. cbn [fst snd world events].
    destruct (sys_Run sys (exec.Command exe ["--python"; Python cfg; Path cfg]) (world s1))
      as [w [[out errb] [e|]]];
      cbn; rewrite <- app_assoc; reflexivity.
  - left. reflexivity.
Qed.

End Provision.

(** C5. The root path exists ([os.Stat] gives no error): [Ensure] returns
    no error and leaves the state as it was, so that no creation strategy
    ran (no event was added) and nothing was modified; a second call does the
    same. *)
Theorem Ensure_existing_is_noop {W : Type} (sys : Sys W) (c : VenvConfig) (s : State W) :
  sys_Stat sys (Path c) (world s) = None ->
  Ensure sys c s = (s, Returned None)
  /\ (Ensure sys c ;; Ensure sys c)%go s = (s, Returned None).
Proof.
  intros Hstat.
  assert (Hone : Ensure sys c s = (s, Returned None)).
  { apply Ensure_skips. rewrite Hstat. reflexivity. }
  split; [exact Hone|].
  unfold bind at 1. rewrite Hone. exact Hone.
Qed.

Lemma Ensure_existing_is_noop_witness :
  Ensure scriptSys demoConfig (start exitsWith2) = (start exitsWith2, Returned None)
  /\ (Ensure scriptSys demoConfig ;; Ensure scriptSys demoConfig)%go (start exitsWith2)
     = (start exitsWith2, Returned None).
Proof.
  apply (Ensure_existing_is_noop scriptSys demoConfig (start exitsWith2)). reflexivity.
Defined.

(** When the path does not exist, the environment is created. *)
Example Ensure_creates :
  events (fst (Ensure scriptSys demoConfig (start (quiet "Python 3.8.10"))))
  = [EvOutput (exec.Command "/usr/bin/python3" ["--version"]);
     EvRun (moduleCmd demoConfig)].
Proof. reflexivity. Qed.

(** ** The choice of the creation strategy *)

(** C6. The version was detected as [(major, minor)]: what [makeVenv] does
    next is the module strategy exactly when [major >= 3] and [minor >= 3],
    and the legacy strategy otherwise; so the module strategy for major 3 and
    minor 3 to 9, and the legacy strategy for major 2 and any minor. *)
Theorem makeVenv_strategy {W : Type} (sys : Sys W) (cfg : VenvConfig)
        (s s1 : State W) (major minor : Z) :
  getPythonVersion sys (Python cfg) s = (s1, Returned (major, minor, None)) ->
  exists new,
    events (fst (makeVenv sys cfg s)) = (events s1 ++ new)%list
    /\ (selectsModule cfg new <-> 3 <= major /\ 3 <= minor)
    /\ (selectsLegacy cfg new <-> ~ (3 <= major /\ 3 <= minor))
    /\ (major = 3 -> 3 <= minor <= 9 -> selectsModule cfg new)
    /\ (major = 2 -> selectsLegacy cfg new).
Proof.
  intros Hver. rewrite (makeVenv_after_version sys cfg s s1 major minor Hver).
  destruct ((major >=? 3) && (minor >=? 3)) eqn:Hgate.
  - apply andb_true_iff in Hgate. destruct Hgate as [Hmaj Hmin].
    apply Z.geb_le in Hmaj, Hmin.
    exists [EvRun (moduleCmd cfg)].
    split; [apply makeVenvViaModule_events|].
    assert (Hnot : ~ selectsLegacy cfg [EvRun (moduleCmd cfg)]).
    { intros [H | [exe H]]; discriminate H. }
    split; [|split; [|split]].
    + split; [intros _; split; assumption | intros _; reflexivity].
    + split; [intros H; contradiction | intros H; exfalso; apply H; split; assumption].
    + intros _ _. reflexivity.
    + intros Htwo. lia.
  - assert (Hno : ~ (3 <= major /\ 3 <= minor)).
    { intros [Hmaj Hmin]. apply Z.geb_le in Hmaj, Hmin.
      rewrite Hmaj, Hmin in Hgate. discriminate. }
    assert (Hleg : exists new,
               events (fst (makeVenvLegacy sys cfg s1)) = (events s1 ++ new)%list
               /\ selectsLegacy cfg new).
    { destruct (makeVenvLegacy_events sys cfg s1) as [H | [exe H]].
      - eexists. split; [exact H|]. left. reflexivity.
      - eexists. split; [exact H|]. right. exists exe. reflexivity. }
    destruct Hleg as (new & Hev & Hsel). exists new.
    split; [exact Hev|].
    assert (Hnot : ~ selectsModule cfg new).
    { unfold selectsModule. intros ->. destruct Hsel as [H | [exe H]]; discriminate H. }
    split; [|split; [|split]].
    + split; [intros H; contradiction | intros H; contradiction].
    + split; [intros _; exact Hno | intros _; exact Hsel].
    + intros Hthree Hminor. exfalso. apply Hno. lia.
    + intros _. exact Hsel.
Qed.

Lemma makeVenv_strategy_witness :
  exists new,
    events (fst (makeVenv scriptSys demoConfig (start (quiet "Python 3.8.10"))))
    = (events (fst (getPythonVersion scriptSys "/usr/bin/python3"
                      (start (quiet "Python 3.8.10")))) ++ new)%list
    /\ (selectsModule demoConfig new <-> 3 <= 3 /\ 3 <= 8)
    /\ (selectsLegacy demoConfig new <-> ~ (3 <= 3 /\ 3 <= 8))
    /\ (3 = 3 -> 3 <= 8 <= 9 -> selectsModule demoConfig new)
    /\ (3 = 2 -> selectsLegacy demoConfig new).
Proof.
  apply (makeVenv_strategy scriptSys demoConfig (start (quiet "Python 3.8.10"))
           (fst (getPythonVersion scriptSys "/usr/bin/python3"
                   (start (quiet "Python 3.8.10")))) 3 8).
  reflexivity.
Defined.

Example makeVenv_python_3_8 :
  events (fst (makeVenv scriptSys demoConfig (start (quiet "Python 3.8.10"))))
  = [EvOutput (exec.Command "/usr/bin/python3" ["--version"]);
     EvRun (moduleCmd demoConfig)].
Proof. reflexivity. Qed.

Example makeVenv_python_2_7 :
  events (fst (makeVenv scriptSys demoConfig (start (quiet "Python 2.7.18"))))
  = [EvOutput (exec.Command "/usr/bin/python3" ["--version"]);
     EvLookPath "virtualenv";
     EvRun (legacyCmd "/usr/bin/virtualenv" demoConfig)].
Proof. reflexivity. Qed.

(** The gate on the minor number sends Python 3.0 to 3.2 to the legacy
    strategy, and would send a Python 4.0 there as well. *)
Example makeVenv_python_3_2 :
  events (fst (makeVenv scriptSys demoConfig (start (quiet "Python 3.2.6"))))
  = [EvOutput (exec.Command "/usr/bin/python3" ["--version"]);
     EvLookPath "virtualenv";
     EvRun (legacyCmd "/usr/bin/virtualenv" demoConfig)].
Proof. reflexivity. Qed.

(** ** Update *)

Section Updating.

Context {W : Type} (sys : Sys W).

(** The buffered mode has no panic: [Run] returns a result. *)
Lemma Run_buffered_returns (c : VenvCommand) (s : State W) :
  StreamOutput c = false ->
  exists s' out, Run sys c s = (s', Returned out).
Proof.
  intros Hmode.
  destruct (sys_LookupEnv sys "PATH" (world s)) as [path|] eqn:Hpath.
  - rewrite (Run_buffered sys c s path Hmode Hpath). cbv zeta.
    do 2 eexists. reflexivity.
  - rewrite (Run_without_PATH sys c s Hpath). do 2 eexists. reflexivity.
Qed.

Lemma Update_of_Run (c : VenvConfig) (requirementsFile : string)
      (s s' : State W) (out : VenvCommandRunOutput) :
  Run sys {| Config := c; Binary := "pip"; Args := ["install"; "-r"; requirementsFile];
             Cwd := ""; Env := []; StreamOutput := false |} s = (s', Returned out) ->
  Update sys c requirementsFile s
  = (s', Returned (errors.Wrap (Error out) "unable to update virtualenv")).
Proof.
  intros Hrun. unfold Update, bind. rewrite Hrun.
  destruct (Error out); reflexivity.
Qed.

End Updating.

(** C7. [Update] calls the runner on the binary [pip] with the arguments
    [install], [-r] and the requirements file, in buffered mode; the runner
    returns a result [out], and [Update] returns the error of [out] under
    "unable to update virtualenv", an UpdateError, when it is non-nil, and no
    error when it is nil. When [PATH] is set, the one child process of the
    call is [pip] under the [bin] directory of the environment, run by
    [cmd.Run()] with these arguments and with buffers for its output. *)
Theorem Update_forwards_to_pip {W : Type} (sys : Sys W) (c : VenvConfig)
        (requirementsFile : string) (s : State W) :
  let vCmd := {| Config := c; Binary := "pip";
                 Args := ["install"; "-r"; requirementsFile];
                 Cwd := ""; Env := []; StreamOutput := false |} in
  let pip := sys_Join sys [Path c; "bin"; "pip"] in
  exists s' out result,
    Run sys vCmd s = (s', Returned out)
    /\ Update sys c requirementsFile s = (s', Returned result)
    /\ ((exists e, Error out = Some e
                   /\ result = Some (withMessage e "unable to update virtualenv")
                   /\ errorKind result = Some UpdateError)
        \/ (Error out = None /\ result = None))
    /\ match sys_LookupEnv sys "PATH" (world s) with
       | None => events s' = events s
       | Some path =>
         exists cmd,
           events s' = (events (launchState sys vCmd path s) ++ [EvRun cmd])%list
           /\ exec.Path cmd = pip
           /\ exec.Args cmd = [pip; "install"; "-r"; requirementsFile]
           /\ exec.Out cmd = exec.Buffers
           /\ exec.Deadline cmd = Some venvCommandTimeout
       end.
Proof.
  intros vCmd pip.
  assert (Hmode : StreamOutput vCmd = false) by reflexivity.
  destruct (Run_buffered_returns sys vCmd s Hmode) as (s' & out & Hrun).
  exists s', out, (errors.Wrap (Error out) "unable to update virtualenv").
  split; [exact Hrun|].
  split; [apply Update_of_Run; exact Hrun|].
  split.
  - destruct (Error out) as [e|].
    + left. exists e. repeat split; reflexivity.
    + right. split; reflexivity.
  - destruct (sys_LookupEnv sys "PATH" (world s)) as [path|] eqn:Hpath.
    + rewrite (Run_buffered sys vCmd s path Hmode Hpath) in Hrun. cbv zeta in Hrun.
      inversion Hrun as [[Hs Hout]]. clear Hout.
      eexists. split; [reflexivity|].
      repeat split; reflexivity.
    + rewrite (Run_without_PATH sys vCmd s Hpath) in Hrun.
      inversion Hrun. reflexivity.
Qed.

Example Update_runs_pip :
  Update scriptSys demoConfig "requirements.txt" (start (quiet ""))
  = ({| world := scriptSetenv "PATH" "/opt/venv/bin:/usr/bin" (quiet "");
        events :=
          [EvSetenv "PATH" "/opt/venv/bin:/usr/bin";
           EvRun {| exec.Path := "/opt/venv/bin/pip";
                    exec.Args := ["/opt/venv/bin/pip"; "install"; "-r"; "requirements.txt"];
                    exec.Env := Some ["PATH=/opt/venv/bin:/usr/bin"];
                    exec.Dir := "";
                    exec.Out := exec.Buffers;
                    exec.Deadline := Some 7200000000000 |}] |},
     Returned None).
Proof. reflexivity. Qed.

Example Update_fails :
  snd (Update scriptSys demoConfig "requirements.txt" (start exitsWith2))
  = Returned (Some (withMessage (withMessage (ExitError 2) "unable to complete command")
                                "unable to update virtualenv")).
Proof. reflexivity. Qed.


(** * Further properties of venv.go *)

(** ** Substrings *)

Lemma stripPrefix_app (a b : string) : stripPrefix a (a ++ b) = Some b.
Proof.
  induction a as [|c a IH]; cbn [append stripPrefix].
  - destruct b; reflexivity.
  - rewrite Ascii.eqb_refl. exact IH.
Qed.

Lemma Contains_unfold (s substr : string) :
  Contains s substr =
  match stripPrefix substr s with
  | Some _ => true
  | None => match s with
            | EmptyString => false
            | String _ t => Contains t substr
            end
  end.
Proof. destruct s; reflexivity. Qed.

(** A string contains each of its substrings. *)
Lemma Contains_app (pre substr post : string) :
  Contains (pre ++ substr ++ post) substr = true.
Proof.
  induction pre as [|c pre IH].
  - cbn [append]. rewrite Contains_unfold, stripPrefix_app. reflexivity.
  - rewrite Contains_unfold. cbn [append].
    destruct (stripPrefix substr (String c (pre ++ substr ++ post))); [reflexivity|].
    exact IH.
Qed.

(** ** The shape of a match *)

Lemma spanDigits_allDigits (s : string) : allDigits (fst (spanDigits s)) = true.
Proof.
  induction s as [|c t IH]; cbn [spanDigits]; [reflexivity|].
  destruct (isDigit c) eqn:Hc; [|reflexivity].
  destruct (spanDigits t) as [ds r]. cbn [fst allDigits] in *.
  rewrite Hc, IH. reflexivity.
Qed.

Lemma matchHere_groups (s : string) (m : list string) :
  matchHere s = Some m -> versionGroups m.
Proof.
  unfold matchHere. intros H.
  destruct (stripPrefix "Python " s) as [[|d r1]|]; try discriminate.
  destruct (isDigit d) eqn:Hd; try discriminate.
  destruct r1 as [|c r]; try discriminate.
  destruct (byte c =? 10); try discriminate.
  pose proof (spanDigits_allDigits (drop (runeWidth (String c r)) (String c r))) as Hall.
  destruct (spanDigits (drop (runeWidth (String c r)) (String c r))) as [minor r2].
  cbn [fst] in Hall.
  destruct minor as [|m0 mt]; try discriminate.
  inversion H. do 4 eexists. split; [reflexivity|].
  repeat split; [exact Hd | discriminate | exact Hall].
Qed.

Lemma FindStringSubmatch_groups (s : string) :
  FindStringSubmatch s = [] \/ versionGroups (FindStringSubmatch s).
Proof.
  induction s as [|c t IH]; cbn [FindStringSubmatch].
  - destruct (matchHere "") as [m|] eqn:Hm; [|left; reflexivity].
    right. exact (matchHere_groups _ _ Hm).
  - destruct (matchHere (String c t)) as [m|] eqn:Hm; [|exact IH].
    right. exact (matchHere_groups _ _ Hm).
Qed.

(** ** Atoi on runs of digits *)

Lemma decimal_nonneg (s : string) : allDigits s = true -> 0 <= decimal s 0.
Proof. intros H. apply decimal_ge; [lia | exact H]. Qed.

Lemma parseDigits_digits (s : string) :
  forall n, 0 <= n -> allDigits s = true ->
            parseDigits s n = inl (decimal s n) \/ parseDigits s n = inr ErrRange.
Proof.
  induction s as [|c t IH]; intros n Hn Hall; cbn [parseDigits decimal].
  - left. reflexivity.
  - cbn [allDigits] in Hall. apply andb_true_iff in Hall. destruct Hall as [Hc Ht].
    rewrite Hc. pose proof (isDigit_bounds c Hc) as Hb.
    destruct (n * 10 + (byte c - 48) >? maxUint64); [right; reflexivity|].
    apply IH; [lia | exact Ht].
Qed.

(** On a non-empty run of digits [Atoi] gives a number between 0 and the
    largest [int], or a range error; never a syntax error. *)
Lemma Atoi_digits (s : string) :
  s <> EmptyString -> allDigits s = true ->
  (exists n, Atoi s = inl n /\ 0 <= n <= maxInt)
  \/ Atoi s = inr (NumError s ErrRange).
Proof.
  intros Hne Hall. destruct s as [|c t]; [congruence|].
  assert (Hc : isDigit c = true).
  { cbn [allDigits] in Hall. apply andb_true_iff in Hall. tauto. }
  destruct (digit_is_no_sign c Hc) as [Hminus Hplus].
  unfold Atoi. rewrite Hminus, Hplus. cbn [orb].
  destruct (parseDigits_digits (String c t) 0) as [Hp|Hp]; [lia | exact Hall | |];
    rewrite Hp; [|right; reflexivity].
  destruct (decimal (String c t) 0 >? maxInt) eqn:Hover; [right; reflexivity|].
  left. eexists. split; [reflexivity|].
  pose proof (decimal_nonneg (String c t) Hall).
  destruct (Z.gtb_spec (decimal (String c t) 0) maxInt); [discriminate | lia].
Qed.

Lemma Atoi_one_digit (d : ascii) :
  isDigit d = true -> Atoi (String d EmptyString) = inl (byte d - 48).
Proof.
  intros Hd. rewrite (Atoi_decimal (String d EmptyString)).
  - reflexivity.
  - discriminate.
  - cbn [allDigits]. rewrite Hd. reflexivity.
  - cbn [decimal]. pose proof (isDigit_bounds d Hd). unfold maxInt. lia.
Qed.

(** ** All the ways getPythonVersion ends *)

Section VersionCases.

Context {W : Type} (sys : Sys W).

Lemma getPythonVersion_cases (interpreter : string) (s : State W) :
  let cmd := exec.Command interpreter ["--version"] in
  let r := sys_Output sys cmd (world s) in
  exists o,
    getPythonVersion sys interpreter s = (mkState (fst r) (events s ++ [EvOutput cmd]), o)
    /\ match snd (snd r) with
       | Some e =>
         o = Returned (-1, -1, Some (withMessage e "Unable to determine Python version."))
       | None =>
         o = Panicked "runtime error: index out of range"
         \/ (exists major minor,
               o = Returned (major, minor, None)
               /\ 0 <= major <= 9 /\ 0 <= minor <= maxInt)
         \/ (exists num,
               o = Returned (-1, 1, Some (withMessage (NumError num ErrRange)
                                            "Unable to parse Python Minor version.")))
       end.
Proof.
  intros cmd r.
  unfold getPythonVersion, bind, cmdOutput. fold cmd. fold r.
  destruct r as [w [out [e|]]]; cbn [fst snd].
  - eexists. split; reflexivity.
  - destruct (FindStringSubmatch_groups out) as [Hnil | Hgr].
    + rewrite Hnil. eexists. split; [reflexivity|]. left. reflexivity.
    + destruct Hgr as (whole & d & ds & patch & Hm & Hd & Hne & Hall).
      rewrite Hm. cbn [index nth_error ret]. rewrite (Atoi_one_digit d Hd).
      cbn [index nth_error ret].
      destruct (Atoi_digits ds Hne Hall) as [(n & Hn & Hrange) | Herr].
      * rewrite Hn. eexists. split; [reflexivity|].
        right. left. exists (byte d - 48), n.
        pose proof (isDigit_bounds d Hd). repeat split; try reflexivity; lia.
      * rewrite Herr. eexists. split; [reflexivity|].
        right. right. exists ds. reflexivity.
Qed.

End VersionCases.

(** ** Version detection: errors and ranges *)

Lemma getPythonVersion_well_formed_witness :
  getPythonVersion scriptSys "/usr/bin/python3" (start (quiet "Python 3.11.4"))
  = (mkState (quiet "Python 3.11.4")
             [EvOutput (exec.Command "/usr/bin/python3" ["--version"])],
     Returned (3, 11, None)).
Proof.
  apply (getPythonVersion_well_formed scriptSys "/usr/bin/python3"
           (start (quiet "Python 3.11.4")) "3" "11" ".4").
  - reflexivity.
  - reflexivity.
  - discriminate.
  - reflexivity.
  - reflexivity.
  - unfold maxInt. cbn. lia.
Defined.

(** X2. The interpreter cannot be run ([cmd.Output()] gives an error [e]):
    getPythonVersion returns [(-1, -1)] and [e] under "Unable to determine
    Python version.", after that one attempt to run the interpreter with
    [--version]. *)
Theorem getPythonVersion_invocation_failure {W : Type} (sys : Sys W)
        (interpreter : string) (s : State W) (e : error) :
  let cmd := exec.Command interpreter ["--version"] in
  snd (snd (sys_Output sys cmd (world s))) = Some e ->
  getPythonVersion sys interpreter s
  = (mkState (fst (sys_Output sys cmd (world s))) (events s ++ [EvOutput cmd]),
     Returned (-1, -1, Some (withMessage e "Unable to determine Python version."))).
Proof.
  intros cmd Herr.
  destruct (getPythonVersion_cases sys interpreter s) as (o & Hrun & Hcase).
  fold cmd in Hrun, Hcase. rewrite Herr in Hcase. rewrite Hrun, Hcase. reflexivity.
Qed.

Lemma getPythonVersion_invocation_failure_witness :
  getPythonVersion scriptSys "/usr/bin/python3" (start noInterpreter)
  = (mkState noInterpreter [EvOutput (exec.Command "/usr/bin/python3" ["--version"])],
     Returned (-1, -1, Some (withMessage (ErrNotExist "/usr/bin/python3")
                                         "Unable to determine Python version."))).
Proof.
  apply (getPythonVersion_invocation_failure scriptSys "/usr/bin/python3"
           (start noInterpreter) (ErrNotExist "/usr/bin/python3")).
  reflexivity.
Defined.

(** X3. Whatever the interpreter prints: when getPythonVersion returns
    without error, the major number is one digit (0 to 9) and the minor
    number is between 0 and the largest [int]; when it returns an error, the
    major number is the sentinel -1. *)
Theorem getPythonVersion_result_range {W : Type} (sys : Sys W)
        (interpreter : string) (s s' : State W) (major minor : Z) (err : option error) :
  getPythonVersion sys interpreter s = (s', Returned (major, minor, err)) ->
  (err = None -> 0 <= major <= 9 /\ 0 <= minor <= maxInt)
  /\ (err <> None -> major = -1).
Proof.
  intros Hret.
  destruct (getPythonVersion_cases sys interpreter s) as (o & Hrun & Hcase).
  rewrite Hret in Hrun. inversion Hrun as [[Hs Ho]]. subst o. clear Hrun.
  destruct (snd (snd (sys_Output sys _ (world s)))) as [e|].
  - inversion Hcase; subst. split; [discriminate | reflexivity].
  - destruct Hcase as [Hp | [(ma & mi & Heq & Hma & Hmi) | (num & Heq)]].
    + discriminate Hp.
    + inversion Heq; subst. split; [intros _; split; assumption | congruence].
    + inversion Heq; subst. split; [discriminate | reflexivity].
Qed.

Lemma getPythonVersion_result_range_witness :
  (@None error = None -> 0 <= 3 <= 9 /\ 0 <= 8 <= maxInt)
  /\ (@None error <> None -> 3 = -1).
Proof.
  apply (getPythonVersion_result_range scriptSys "/usr/bin/python3"
           (start (quiet "Python 3.8.10"))
           (mkState (quiet "Python 3.8.10")
                    [EvOutput (exec.Command "/usr/bin/python3" ["--version"])])).
  reflexivity.
Defined.

(** X4. The errors of getPythonVersion: an error that it returns is either
    the failure to run the interpreter, with [(-1, -1)], or a minor number
    that overflows [int], with [(-1, 1)] and a range error under "Unable to
    parse Python Minor version.". The major number never fails to parse: the
    pattern makes it one digit. *)
Theorem getPythonVersion_error_shape {W : Type} (sys : Sys W)
        (interpreter : string) (s s' : State W) (major minor : Z) (e : error) :
  getPythonVersion sys interpreter s = (s', Returned (major, minor, Some e)) ->
  (exists cause,
     snd (snd (sys_Output sys (exec.Command interpreter ["--version"]) (world s)))
     = Some cause
     /\ e = withMessage cause "Unable to determine Python version."
     /\ major = -1 /\ minor = -1)
  \/ (exists num,
        e = withMessage (NumError num ErrRange) "Unable to parse Python Minor version."
        /\ major = -1 /\ minor = 1).
Proof.
  intros Hret.
  destruct (getPythonVersion_cases sys interpreter s) as (o & Hrun & Hcase).
  rewrite Hret in Hrun. inversion Hrun as [[Hs Ho]]. subst o. clear Hrun.
  destruct (snd (snd (sys_Output sys _ (world s)))) as [cause|].
  - inversion Hcase; subst. left. exists cause. repeat split; reflexivity.
  - destruct Hcase as [Hp | [(ma & mi & Heq & _) | (num & Heq)]].
    + discriminate Hp.
    + discriminate Heq.
    + inversion Heq; subst. right. exists num. repeat split; reflexivity.
Qed.

Lemma getPythonVersion_error_shape_witness :
  (exists cause,
     snd (snd (sys_Output scriptSys (exec.Command "/usr/bin/python3" ["--version"])
                 (world (start (quiet "Python 3.9223372036854775808")))))
     = Some cause
     /\ withMessage (NumError "9223372036854775808" ErrRange)
                    "Unable to parse Python Minor version."
        = withMessage cause "Unable to determine Python version."
     /\ -1 = -1 /\ 1 = -1)
  \/ (exists num,
        withMessage (NumError "9223372036854775808" ErrRange)
                    "Unable to parse Python Minor version."
        = withMessage (NumError num ErrRange) "Unable to parse Python Minor version."
        /\ -1 = -1 /\ 1 = 1).
Proof.
  apply (getPythonVersion_error_shape scriptSys "/usr/bin/python3"
           (start (quiet "Python 3.9223372036854775808"))
           (mkState (quiet "Python 3.9223372036854775808")
                    [EvOutput (exec.Command "/usr/bin/python3" ["--version"])])).
  reflexivity.
Defined.

(** ** makeVenv: how it fails and what it returns *)

(** X5. The version cannot be detected because the interpreter cannot be
    run: makeVenv returns that error under two messages, and neither
    creation strategy is tried (the only event is the version query). *)
Theorem makeVenv_version_failure {W : Type} (sys : Sys W) (cfg : VenvConfig)
        (s : State W) (e : error) :
  let cmd := exec.Command (Python cfg) ["--version"] in
  snd (snd (sys_Output sys cmd (world s))) = Some e ->
  makeVenv sys cfg s
  = (mkState (fst (sys_Output sys cmd (world s))) (events s ++ [EvOutput cmd]),
     Returned (Some (withMessage
                       (withMessage e "Unable to determine Python version.")
                       "Unable to determine python version for specified interpreter."))).
Proof.
  intros cmd Herr.
  destruct (getPythonVersion_cases sys (Python cfg) s) as (o & Hrun & Hcase).
  fold cmd in Hrun, Hcase. rewrite Herr in Hcase. subst o.
  unfold makeVenv, bind. rewrite Hrun. reflexivity.
Qed.

Lemma makeVenv_version_failure_witness :
  makeVenv scriptSys demoConfig (start noInterpreter)
  = (mkState noInterpreter [EvOutput (exec.Command "/usr/bin/python3" ["--version"])],
     Returned (Some (withMessage
                       (withMessage (ErrNotExist "/usr/bin/python3")
                                    "Unable to determine Python version.")
                       "Unable to determine python version for specified interpreter."))).
Proof.
  apply (makeVenv_version_failure scriptSys demoConfig (start noInterpreter)
           (ErrNotExist "/usr/bin/python3")).
  reflexivity.
Defined.

(** X6. The legacy strategy on a machine without [virtualenv]: the search
    on the path fails with [e], makeVenv returns [e] under "virtualenv not
    found in path" and "unable to create virtual environment", and no
    creation command is run. *)
Theorem makeVenv_legacy_without_virtualenv {W : Type} (sys : Sys W) (cfg : VenvConfig)
        (s s1 : State W) (major minor : Z) (e : error) :
  getPythonVersion sys (Python cfg) s = (s1, Returned (major, minor, None)) ->
  ~ (3 <= major /\ 3 <= minor) ->
  sys_LookPath sys "virtualenv" (world s1) = inr e ->
  makeVenv sys cfg s
  = (mkState (world s1) (events s1 ++ [EvLookPath "virtualenv"]),
     Returned (Some (withMessage (withMessage e "virtualenv not found in path")
                                 "unable to create virtual environment"))).
Proof.
  intros Hver Hgate Hlook.
  assert (Hb : (major >=? 3) && (minor >=? 3) = false).
  { destruct ((major >=? 3) && (minor >=? 3)) eqn:Hg; [|reflexivity].
    apply andb_true_iff in Hg. destruct Hg as [Hmaj Hmin].
    apply Z.geb_le in Hmaj, Hmin. exfalso. apply Hgate. split; assumption. }
  unfold makeVenv, bind at 1. rewrite Hver, Hb.
  unfold bind, makeVenvLegacy, bind, LookPath. rewrite Hlook. reflexivity.
Qed.

Lemma makeVenv_legacy_without_virtualenv_witness :
  makeVenv scriptSys demoConfig (start noVirtualenv)
  = (mkState noVirtualenv
             ([EvOutput (exec.Command "/usr/bin/python3" ["--version"])]
                ++ [EvLookPath "virtualenv"]),
     Returned (Some (withMessage
                       (withMessage
                          (OsError "exec: virtualenv: executable file not found in $PATH")
                          "virtualenv not found in path")
                       "unable to create virtual environment"))).
Proof.
  apply (makeVenv_legacy_without_virtualenv scriptSys demoConfig (start noVirtualenv)
           (mkState noVirtualenv [EvOutput (exec.Command "/usr/bin/python3" ["--version"])])
           2 7).
  - reflexivity.
  - lia.
  - reflexivity.
Defined.

(** X7. The module strategy: with a detected version of at least 3 in both
    numbers, makeVenv runs the interpreter with [-m venv] once and returns
    the error of that command under "unable to create virtual environment",
    or no error when the command has none. *)
Theorem makeVenv_module_result {W : Type} (sys : Sys W) (cfg : VenvConfig)
        (s s1 : State W) (major minor : Z) (w2 : W) (out errb : string)
        (err : option error) :
  getPythonVersion sys (Python cfg) s = (s1, Returned (major, minor, None)) ->
  3 <= major -> 3 <= minor ->
  sys_Run sys (moduleCmd cfg) (world s1) = (w2, (out, errb, err)) ->
  makeVenv sys cfg s
  = (mkState w2 (events s1 ++ [EvRun (moduleCmd cfg)]),
     Returned (errors.Wrap err "unable to create virtual environment")).
Proof.
  intros Hver Hmaj Hmin Hrun.
  assert (Hb : (major >=? 3) && (minor >=? 3) = true).
  { apply andb_true_iff. split; apply Z.geb_le; assumption. }
  unfold makeVenv, bind at 1. rewrite Hver, Hb.
  unfold bind, makeVenvViaModule, bind, cmdRun. fold (moduleCmd cfg). rewrite Hrun.
  destruct err; reflexivity.
Qed.

Lemma makeVenv_module_result_witness :
  makeVenv scriptSys demoConfig (start (creationFails "Python 3.8.10"))
  = (mkState (creationFails "Python 3.8.10")
             ([EvOutput (exec.Command "/usr/bin/python3" ["--version"])]
                ++ [EvRun (moduleCmd demoConfig)]),
     Returned (errors.Wrap (Some (ExitError 1)) "unable to create virtual environment")).
Proof.
  apply (makeVenv_module_result scriptSys demoConfig (start (creationFails "Python 3.8.10"))
           (mkState (creationFails "Python 3.8.10")
                    [EvOutput (exec.Command "/usr/bin/python3" ["--version"])])
           3 8 (creationFails "Python 3.8.10") "" "").
  - reflexivity.
  - lia.
  - lia.
  - reflexivity.
Defined.

(** X8. The legacy strategy with [virtualenv] found at [venvExecutable]:
    makeVenv runs it once with [--python], the interpreter and the root path,
    and returns the error of that command under "unable to create virtual
    environment", or no error when the command has none. *)
Theorem makeVenv_legacy_result {W : Type} (sys : Sys W) (cfg : VenvConfig)
        (s s1 : State W) (major minor : Z) (venvExecutable : string)
        (w2 : W) (out errb : string) (err : option error) :
  getPythonVersion sys (Python cfg) s = (s1, Returned (major, minor, None)) ->
  ~ (3 <= major /\ 3 <= minor) ->
  sys_LookPath sys "virtualenv" (world s1) = inl venvExecutable ->
  sys_Run sys (legacyCmd venvExecutable cfg) (world s1) = (w2, (out, errb, err)) ->
  makeVenv sys cfg s
  = (mkState w2 (events s1 ++ [EvLookPath "virtualenv";
                               EvRun (legacyCmd venvExecutable cfg)]),
     Returned (errors.Wrap err "unable to create virtual environment")).
Proof.
  intros Hver Hgate Hlook Hrun.
  assert (Hb : (major >=? 3) && (minor >=? 3) = false).
  { destruct ((major >=? 3) && (minor >=? 3)) eqn:Hg; [|reflexivity].
    apply andb_true_iff in Hg. destruct Hg as [Hmaj Hmin].
    apply Z.geb_le in Hmaj, Hmin. exfalso. apply Hgate. split; assumption. }
  unfold makeVenv, bind at 1. rewrite Hver, Hb.
  unfold bind, makeVenvLegacy, bind, LookPath, cmdRun. rewrite Hlook.
  cbn [world events]. fold (legacyCmd venvExecutable cfg). rewrite Hrun.
  rewrite <- app_assoc. destruct err; reflexivity.
Qed.

Lemma makeVenv_legacy_result_witness :
  makeVenv scriptSys demoConfig (start (creationFails "Python 3.2.6"))
  = (mkState (creationFails "Python 3.2.6")
             ([EvOutput (exec.Command "/usr/bin/python3" ["--version"])]
                ++ [EvLookPath "virtualenv";
                    EvRun (legacyCmd "/usr/bin/virtualenv" demoConfig)]),
     Returned (errors.Wrap (Some (ExitError 1)) "unable to create virtual environment")).
Proof.
  apply (makeVenv_legacy_result scriptSys demoConfig (start (creationFails "Python 3.2.6"))
           (mkState (creationFails "Python 3.2.6")
                    [EvOutput (exec.Command "/usr/bin/python3" ["--version"])])
           3 2 "/usr/bin/virtualenv" (creationFails "Python 3.2.6") "" "").
  - reflexivity.
  - lia.
  - reflexivity.
  - reflexivity.
Defined.

(** ** Ensure on a missing path and on a failing stat *)

(** X9. The root path does not exist: [Ensure] is makeVenv, with the same
    effects and the same result; the error of makeVenv is returned as it
    is, without another message. *)
Theorem Ensure_missing_is_makeVenv {W : Type} (sys : Sys W) (c : VenvConfig)
        (s : State W) (name : string) :
  sys_Stat sys (Path c) (world s) = Some (ErrNotExist name) ->
  Ensure sys c s = makeVenv sys c s.
Proof.
  intros Hstat. unfold Ensure, bind at 1, Stat. rewrite Hstat. cbn [IsNotExist].
  unfold bind. destruct (makeVenv sys c s) as [s' [[e|]|msg]]; reflexivity.
Qed.

Lemma Ensure_missing_is_makeVenv_witness :
  Ensure scriptSys demoConfig (start noVirtualenv)
  = makeVenv scriptSys demoConfig (start noVirtualenv).
Proof.
  apply (Ensure_missing_is_makeVenv scriptSys demoConfig (start noVirtualenv) "/opt/venv").
  reflexivity.
Defined.

(** X10. [os.Stat] fails with an error that does not say that the path is
    missing (a permission error, say): [Ensure] drops that error, creates
    nothing and returns no error. *)
Theorem Ensure_ignores_other_stat_errors {W : Type} (sys : Sys W) (c : VenvConfig)
        (s : State W) (e : error) :
  sys_Stat sys (Path c) (world s) = Some e ->
  (forall name, e <> ErrNotExist name) ->
  Ensure sys c s = (s, Returned None).
Proof.
  intros Hstat Hother. apply Ensure_skips. rewrite Hstat.
  destruct e; try reflexivity. exfalso. exact (Hother name eq_refl).
Qed.

Lemma Ensure_ignores_other_stat_errors_witness :
  Ensure scriptSys demoConfig (start statDenied) = (start statDenied, Returned None).
Proof.
  apply (Ensure_ignores_other_stat_errors scriptSys demoConfig (start statDenied)
           (OsError "stat /opt/venv: permission denied")).
  - reflexivity.
  - intros name H. discriminate H.
Defined.

(** ** The update of PATH *)

(** X19. The test on [PATH] is a test on substrings: whenever the [bin]
    directory of the environment occurs anywhere in [PATH], be it inside a
    longer directory name, [PATH] is left as it is. *)
Theorem addVenvPath_substring {W : Type} (sys : Sys W) (c : VenvCommand)
        (s : State W) (path pre post : string) :
  path = pre ++ sys_Join sys [Path (Config c); "bin"] ++ post ->
  addVenvPath sys c path s = (s, Returned tt).
Proof.
  intros ->. unfold addVenvPath. rewrite Contains_app. reflexivity.
Qed.

Lemma addVenvPath_substring_witness :
  addVenvPath scriptSys (demoCommand false) "/usr/bin:/opt/venv/bin2"
              (start (prints "/usr/bin:/opt/venv/bin2" ""))
  = (start (prints "/usr/bin:/opt/venv/bin2" ""), Returned tt).
Proof.
  apply (addVenvPath_substring scriptSys (demoCommand false)
           (start (prints "/usr/bin:/opt/venv/bin2" ""))
           "/usr/bin:/opt/venv/bin2" "/usr/bin:" "2").
  reflexivity.
Defined.

(** X20. [PATH] gets the [bin] directory at most once. On a system where
    a variable that was set is found with the value that was set, after the
    update of [Run] the variable [PATH] contains the [bin] directory, and a
    second update changes nothing. *)
Theorem addVenvPath_idempotent {W : Type} (sys : Sys W) (c : VenvCommand)
        (s : State W) (path : string) :
  (forall v w, sys_LookupEnv sys "PATH" (sys_Setenv sys "PATH" v w) = Some v) ->
  sys_LookupEnv sys "PATH" (world s) = Some path ->
  let s1 := launchState sys c path s in
  exists path1,
    sys_LookupEnv sys "PATH" (world s1) = Some path1
    /\ Contains path1 (sys_Join sys [Path (Config c); "bin"]) = true
    /\ addVenvPath sys c path1 s1 = (s1, Returned tt).
Proof.
  intros Hlaw Hpath s1. subst s1. unfold launchState, addVenvPath.
  destruct (Contains path (sys_Join sys [Path (Config c); "bin"])) eqn:Hin;
    cbn [negb fst world].
  - exists path. unfold ret. cbn [fst]. rewrite Hin.
    split; [exact Hpath | split; reflexivity].
  - unfold Setenv. cbn [fst world].
    exists (sys_Join sys [Path (Config c); "bin"] ++ ":" ++ path).
    assert (Hc : Contains (sys_Join sys [Path (Config c); "bin"] ++ ":" ++ path)
                          (sys_Join sys [Path (Config c); "bin"]) = true).
    { exact (Contains_app "" (sys_Join sys [Path (Config c); "bin"]) (":" ++ path)). }
    rewrite Hc. split; [apply Hlaw | split; reflexivity].
Qed.

Lemma addVenvPath_idempotent_witness :
  exists path1,
    sys_LookupEnv scriptSys "PATH"
      (world (launchState scriptSys (demoCommand false) "/usr/bin" (start (prints "/usr/bin" ""))))
    = Some path1
    /\ Contains path1 (sys_Join scriptSys [Path (Config (demoCommand false)); "bin"]) = true
    /\ addVenvPath scriptSys (demoCommand false) path1
         (launchState scriptSys (demoCommand false) "/usr/bin" (start (prints "/usr/bin" "")))
       = (launchState scriptSys (demoCommand false) "/usr/bin" (start (prints "/usr/bin" "")),
          Returned tt).
Proof.
  apply (addVenvPath_idempotent scriptSys (demoCommand false)
           (start (prints "/usr/bin" "")) "/usr/bin").
  - intros v w. reflexivity.
  - reflexivity.
Defined.

(** ** Run: the remaining outcomes *)

(** X11. [PATH] is not set: in either mode [Run] returns at once, with
    the error "Unable to lookup the $PATH env variable", exit code -1 and
    empty output; the environment is not touched and no child is started. *)
Theorem Run_unset_PATH_starts_nothing {W : Type} (sys : Sys W) (c : VenvCommand)
        (s : State W) :
  sys_LookupEnv sys "PATH" (world s) = None ->
  exists r,
    Run sys c s = (s, Returned r)
    /\ Error r = Some (fundamental "Unable to lookup the $PATH env variable")
    /\ Exitcode r = -1 /\ Stdout r = "" /\ Stderr r = "".
Proof.
  intros Hpath. rewrite (Run_without_PATH sys c s Hpath).
  eexists. split; [reflexivity|]. repeat split.
Qed.

Lemma Run_unset_PATH_starts_nothing_witness :
  exists r,
    Run scriptSys (demoCommand true) (start noPATH) = (start noPATH, Returned r)
    /\ Error r = Some (fundamental "Unable to lookup the $PATH env variable")
    /\ Exitcode r = -1 /\ Stdout r = "" /\ Stderr r = "".
Proof.
  apply (Run_unset_PATH_starts_nothing scriptSys (demoCommand true) (start noPATH)).
  reflexivity.
Defined.

(** X12. Buffered mode, the command ends well and the deadline has not
    fired: the result has no error, exit code 0, and the two outputs of the
    child. *)
Theorem Run_buffered_success {W : Type} (sys : Sys W) (c : VenvCommand)
        (s : State W) (path : string) (w2 : W) (out errb : string) :
  StreamOutput c = false ->
  sys_LookupEnv sys "PATH" (world s) = Some path ->
  let s1 := launchState sys c path s in
  sys_Run sys (launchCmd sys c s1) (world s1) = (w2, (out, errb, None)) ->
  sys_CtxErr sys w2 <> Some DeadlineExceeded ->
  snd (Run sys c s)
  = Returned {| Stdout := out; Stderr := errb; Error := None; Exitcode := 0 |}.
Proof.
  intros Hmode Hpath s1 Hrun Hctx.
  rewrite (Run_buffered sys c s path Hmode Hpath). cbv zeta. fold s1.
  rewrite Hrun. cbn [fst snd].
  destruct (sys_CtxErr sys w2) as [[ | | | | | | ]|]; try reflexivity.
  exfalso. apply Hctx. reflexivity.
Qed.

Lemma Run_buffered_success_witness :
  snd (Run scriptSys (demoCommand false) (start (prints "/usr/bin" "hello")))
  = Returned {| Stdout := "hello"; Stderr := ""; Error := None; Exitcode := 0 |}.
Proof.
  apply (Run_buffered_success scriptSys (demoCommand false)
           (start (prints "/usr/bin" "hello")) "/usr/bin"
           (scriptSetenv "PATH" "/opt/venv/bin:/usr/bin" (prints "/usr/bin" "hello"))).
  - reflexivity.
  - reflexivity.
  - reflexivity.
  - discriminate.
Defined.

(** X13. Buffered mode, the child exits with a status other than success
    and the deadline has not fired: the exit code of the result is the one
    of the child, the error is the exit error under "unable to complete
    command", and the outputs are those of the child. *)
Theorem Run_buffered_exit_code {W : Type} (sys : Sys W) (c : VenvCommand)
        (s : State W) (path : string) (w2 : W) (out errb : string) (code : Z) :
  StreamOutput c = false ->
  sys_LookupEnv sys "PATH" (world s) = Some path ->
  let s1 := launchState sys c path s in
  sys_Run sys (launchCmd sys c s1) (world s1) = (w2, (out, errb, Some (ExitError code))) ->
  sys_CtxErr sys w2 <> Some DeadlineExceeded ->
  snd (Run sys c s)
  = Returned {| Stdout := out; Stderr := errb;
                Error := Some (withMessage (ExitError code) "unable to complete command");
                Exitcode := code |}.
Proof.
  intros Hmode Hpath s1 Hrun Hctx.
  rewrite (Run_buffered sys c s path Hmode Hpath). cbv zeta. fold s1.
  rewrite Hrun. cbn [fst snd].
  destruct (sys_CtxErr sys w2) as [[ | | | | | | ]|]; try reflexivity.
  exfalso. apply Hctx. reflexivity.
Qed.

Lemma Run_buffered_exit_code_witness :
  snd (Run scriptSys (demoCommand false) (start exitsWith2))
  = Returned {| Stdout := "PLAY [all]"; Stderr := "ERROR! no hosts matched";
                Error := Some (withMessage (ExitError 2) "unable to complete command");
                Exitcode := 2 |}.
Proof.
  apply (Run_buffered_exit_code scriptSys (demoCommand false) (start exitsWith2)
           "/opt/venv/bin:/usr/bin" exitsWith2).
  - reflexivity.
  - reflexivity.
  - reflexivity.
  - discriminate.
Defined.

(** X14. Buffered mode, the deadline has fired but [cmd.Run()] reports no
    error (the child ended well just then): wrapping the nil error gives nil,
    so the result has no error at all, while its exit code stays at -1. *)
Theorem Run_buffered_deadline_without_error {W : Type} (sys : Sys W) (c : VenvCommand)
        (s : State W) (path : string) (w2 : W) (out errb : string) :
  StreamOutput c = false ->
  sys_LookupEnv sys "PATH" (world s) = Some path ->
  let s1 := launchState sys c path s in
  sys_Run sys (launchCmd sys c s1) (world s1) = (w2, (out, errb, None)) ->
  sys_CtxErr sys w2 = Some DeadlineExceeded ->
  snd (Run sys c s)
  = Returned {| Stdout := out; Stderr := errb; Error := None; Exitcode := -1 |}.
Proof.
  intros Hmode Hpath s1 Hrun Hctx.
  rewrite (Run_buffered sys c s path Hmode Hpath). cbv zeta. fold s1.
  rewrite Hrun. cbn [fst snd]. rewrite Hctx. reflexivity.
Qed.

Lemma Run_buffered_deadline_without_error_witness :
  snd (Run scriptSys (demoCommand false) (start endsAtDeadline))
  = Returned {| Stdout := "ok"; Stderr := ""; Error := None; Exitcode := -1 |}.
Proof.
  apply (Run_buffered_deadline_without_error scriptSys (demoCommand false)
           (start endsAtDeadline) "/usr/bin"
           (scriptSetenv "PATH" "/opt/venv/bin:/usr/bin" endsAtDeadline)).
  - reflexivity.
  - reflexivity.
  - reflexivity.
  - reflexivity.
Defined.

(** X15. Streaming mode, the child starts and [Wait] gives an exit error:
    the exit code of the result is the one of the child and the error is the
    exit error under "unable to complete command". *)
Theorem Run_streaming_exit_code {W : Type} (sys : Sys W) (c : VenvCommand)
        (s : State W) (path : string) (code : Z) :
  StreamOutput c = true ->
  sys_LookupEnv sys "PATH" (world s) = Some path ->
  let s1 := launchState sys c path s in
  let cmd := launchCmd sys c s1 in
  snd (sys_Start sys cmd (world s1)) = None ->
  snd (sys_Wait sys cmd (fst (sys_Start sys cmd (world s1)))) = Some (ExitError code) ->
  snd (Run sys c s)
  = Returned {| Stdout := ""; Stderr := "";
                Error := Some (withMessage (ExitError code) "unable to complete command");
                Exitcode := code |}.
Proof.
  intros Hmode Hpath s1 cmd Hstart Hwait.
  rewrite (Run_streaming sys c s path Hmode Hpath). cbv zeta.
  fold s1. fold cmd. rewrite Hstart, Hwait. reflexivity.
Qed.

Lemma Run_streaming_exit_code_witness :
  snd (Run scriptSys (demoCommand true) (start exitsWith2))
  = Returned {| Stdout := ""; Stderr := "";
                Error := Some (withMessage (ExitError 2) "unable to complete command");
                Exitcode := 2 |}.
Proof.
  apply (Run_streaming_exit_code scriptSys (demoCommand true) (start exitsWith2)
           "/opt/venv/bin:/usr/bin" 2); reflexivity.
Defined.

(** X16. Streaming mode, the child starts and [Wait] gives no error: the
    result has no error and exit code 0. *)
Theorem Run_streaming_success {W : Type} (sys : Sys W) (c : VenvCommand)
        (s : State W) (path : string) :
  StreamOutput c = true ->
  sys_LookupEnv sys "PATH" (world s) = Some path ->
  let s1 := launchState sys c path s in
  let cmd := launchCmd sys c s1 in
  snd (sys_Start sys cmd (world s1)) = None ->
  snd (sys_Wait sys cmd (fst (sys_Start sys cmd (world s1)))) = None ->
  snd (Run sys c s)
  = Returned {| Stdout := ""; Stderr := ""; Error := None; Exitcode := 0 |}.
Proof.
  intros Hmode Hpath s1 cmd Hstart Hwait.
  rewrite (Run_streaming sys c s path Hmode Hpath). cbv zeta.
  fold s1. fold cmd. rewrite Hstart, Hwait. reflexivity.
Qed.

Lemma Run_streaming_success_witness :
  snd (Run scriptSys (demoCommand true) (start (prints "/usr/bin" "hello")))
  = Returned {| Stdout := ""; Stderr := ""; Error := None; Exitcode := 0 |}.
Proof.
  apply (Run_streaming_success scriptSys (demoCommand true)
           (start (prints "/usr/bin" "hello")) "/usr/bin"); reflexivity.
Defined.

(** X17. The errors of [Run]. A result that [Run] returns has no error,
    or its error carries one of four messages: the lookup of [PATH], the
    start of the command (streaming mode only), the timeout (buffered mode
    only), or the generic failure. With the first three the exit code is the
    sentinel -1. *)
Theorem Run_error_kinds {W : Type} (sys : Sys W) (c : VenvCommand)
        (s s' : State W) (r : VenvCommandRunOutput) :
  Run sys c s = (s', Returned r) ->
  (Error r = None
   \/ errorKind (Error r) = Some EnvironmentLookupError
   \/ (StreamOutput c = true /\ errorKind (Error r) = Some StartError)
   \/ (StreamOutput c = false /\ errorKind (Error r) = Some TimeoutError)
   \/ errorKind (Error r) = Some ExecutionFailedError)
  /\ (errorKind (Error r) = Some EnvironmentLookupError
      \/ errorKind (Error r) = Some StartError
      \/ errorKind (Error r) = Some TimeoutError ->
      Exitcode r = -1).
Proof.
  intros Hrun.
  destruct (sys_LookupEnv sys "PATH" (world s)) as [path|] eqn:Hpath.
  - destruct (StreamOutput c) eqn:Hmode.
    + rewrite (Run_streaming sys c s path Hmode Hpath) in Hrun. cbv zeta in Hrun.
      destruct (snd (sys_Start sys _ _)) as [e|].
      * inversion Hrun; subst. cbn. split; [|reflexivity].
        right. right. left. split; reflexivity.
      * destruct (snd (sys_Wait sys _ _)) as [[ | | | | | | ]|];
          inversion Hrun; subst; cbn.
        -- split; [do 4 right; reflexivity|].
           intros [H | [H | H]]; discriminate H.
        -- split; [left; reflexivity|].
           intros [H | [H | H]]; discriminate H.
    + rewrite (Run_buffered sys c s path Hmode Hpath) in Hrun. cbv zeta in Hrun.
      inversion Hrun as [[Hs Hr]]. clear Hrun Hs Hr.
      destruct (sys_CtxErr sys _) as [[ | | | | | | ]|];
        destruct (snd (snd (sys_Run sys _ _))) as [e|]; cbn;
          try (split; [left; reflexivity | intros [H | [H | H]]; discriminate H]);
          try (split; [do 4 right; reflexivity | intros [H | [H | H]]; discriminate H]).
      split; [|reflexivity]. right. right. right. left. split; reflexivity.
  - rewrite (Run_without_PATH sys c s Hpath) in Hrun. inversion Hrun; subst. cbn.
    split; [right; left; reflexivity | reflexivity].
Qed.

Lemma Run_error_kinds_witness :
  (Error {| Stdout := "TASK [setup]"; Stderr := "";
            Error := Some (withMessage (ExitError (-1)) "Execution timed out");
            Exitcode := -1 |} = None
   \/ errorKind (Some (withMessage (ExitError (-1)) "Execution timed out"))
      = Some EnvironmentLookupError
   \/ (StreamOutput (demoCommand false) = true
       /\ errorKind (Some (withMessage (ExitError (-1)) "Execution timed out"))
          = Some StartError)
   \/ (StreamOutput (demoCommand false) = false
       /\ errorKind (Some (withMessage (ExitError (-1)) "Execution timed out"))
          = Some TimeoutError)
   \/ errorKind (Some (withMessage (ExitError (-1)) "Execution timed out"))
      = Some ExecutionFailedError)
  /\ (errorKind (Some (withMessage (ExitError (-1)) "Execution timed out"))
      = Some EnvironmentLookupError
      \/ errorKind (Some (withMessage (ExitError (-1)) "Execution timed out"))
         = Some StartError
      \/ errorKind (Some (withMessage (ExitError (-1)) "Execution timed out"))
         = Some TimeoutError ->
      -1 = -1).
Proof.
  apply (Run_error_kinds scriptSys (demoCommand false)
           (start (killedAtDeadline "TASK [setup]"))
           (fst (Run scriptSys (demoCommand false) (start (killedAtDeadline "TASK [setup]"))))
           {| Stdout := "TASK [setup]"; Stderr := "";
              Error := Some (withMessage (ExitError (-1)) "Execution timed out");
              Exitcode := -1 |}).
  reflexivity.
Defined.


(** ** Update: when it succeeds *)

(** X21. [Update] returns no error exactly when [PATH] is set and the
    [cmd.Run()] of [pip] reports no error; in every other case it returns an
    error, and it never panics. *)
Theorem Update_nil_iff {W : Type} (sys : Sys W) (c : VenvConfig)
        (requirementsFile : string) (s : State W) :
  let vCmd := {| Config := c; Binary := "pip";
                 Args := ["install"; "-r"; requirementsFile];
                 Cwd := ""; Env := []; StreamOutput := false |} in
  (exists result, snd (Update sys c requirementsFile s) = Returned result)
  /\ (snd (Update sys c requirementsFile s) = Returned None
      <-> exists path,
            sys_LookupEnv sys "PATH" (world s) = Some path
            /\ snd (snd (sys_Run sys (launchCmd sys vCmd (launchState sys vCmd path s))
                           (world (launchState sys vCmd path s)))) = None).
Proof.
  intros vCmd.
  assert (Hmode : StreamOutput vCmd = false) by reflexivity.
  destruct (Run_buffered_returns sys vCmd s Hmode) as (s' & out & Hrun).
  rewrite (Update_of_Run sys c requirementsFile s s' out Hrun). cbn [snd].
  split; [eexists; reflexivity|].
  destruct (sys_LookupEnv sys "PATH" (world s)) as [path|] eqn:Hpath.
  - rewrite (Run_buffered sys vCmd s path Hmode Hpath) in Hrun. cbv zeta in Hrun.
    inversion Hrun as [[Hs Hout]]. clear Hrun Hs Hout.
    destruct (snd (snd (sys_Run sys _ _))) as [e|] eqn:Herr.
    + split.
      * intros H. exfalso.
        destruct (sys_CtxErr sys _) as [[ | | | | | | ]|]; cbn in H; discriminate H.
      * intros (path' & Hp & Hnil). inversion Hp; subst path'.
        rewrite Herr in Hnil. discriminate Hnil.
    + split.
      * intros _. exists path. split; [reflexivity | exact Herr].
      * intros _.
        destruct (sys_CtxErr sys _) as [[ | | | | | | ]|]; reflexivity.
  - rewrite (Run_without_PATH sys vCmd s Hpath) in Hrun. inversion Hrun; subst.
    split.
    + intros H. discriminate H.
    + intros (path' & Hp & _). discriminate Hp.
Qed.
